(** * zaiko-app: inventory ledger and sales statistics

    A shallow embedding of the handlers of [App.js] (both revisions that
    live in the repository: the date-keyed one, [src/App.js], and the
    timestamped one with the hourly chart) and of the import path of
    [Settings.js].

    Conventions of the embedding.
    - A JavaScript number that a guard tests with [isNaN] is a [JsNum]:
      [NaN] or an exact rational.  Stored numeric fields are rationals;
      rounding of IEEE doubles is not modelled.
    - Identifiers are integers ([Z]); [===] on them is [Z.eqb].
    - A React state setter becomes a new [State]; a handler returns the
      state it leaves behind together with the [alert] it raised, if any.
    - [window.confirm] is a boolean argument of the handler.
    - A point in time is a number of milliseconds of local time, a
      calendar date ([<input type="date">]) is a day number; an absent
      date (the empty string) is [None]. *)

From Stdlib Require Import QArith Lqa ZArith List String.
From stdpp Require Import base list strings.

Open Scope string_scope.
Open Scope list_scope.
Open Scope Z_scope.

(** ** JavaScript numbers *)

Inductive JsNum : Type :=
| NaN
| Num (q : Q).

(** [x < y] on rationals, as a boolean. *)
Definition Qltb (x y : Q) : bool := negb (Qle_bool y x).

(** [x || 0] on a number that is not [NaN]. *)
Definition orZero (x : Q) : Q := if Qeq_bool x 0 then 0%Q else x.

(** [x || d] on a possibly-[NaN] number. *)
Definition orElse (x : JsNum) (d : Q) : Q :=
  match x with
  | NaN => d
  | Num q => if Qeq_bool q 0 then d else q
  end.

(** [s || d] on a string: the empty string is falsy. *)
Definition strOr (s d : string) : string :=
  match s with
  | EmptyString => d
  | _ => s
  end.

(** ** Entities *)

Module Item.
Record t : Type := mk { materialId : Z; qty : Q }.
End Item.

Module Material.
Record t : Type := mk
  { id : Z; name : string; stock : Q; deadline : Q; consumed : Q }.
End Material.

Module Recipe.
Record t : Type := mk
  { id : Z; name : string; price : Q; items : list Item.t; soldCount : Q }.
End Recipe.

Module Sale.
(** [Stamp] is what the sale carries about its time: the [date] key of
    [src/App.js], the [timestamp] of the later revision. *)
Record t (Stamp : Type) : Type := mk
  { id : Z; recipeId : Z; qty : Q; pricePerUnit : Q; stamp : Stamp }.
Arguments mk {Stamp}.
Arguments id {Stamp}.
Arguments recipeId {Stamp}.
Arguments qty {Stamp}.
Arguments pricePerUnit {Stamp}.
Arguments stamp {Stamp}.
End Sale.

(** The messages the handlers pass to [alert]. *)
Inductive Alert : Type :=
| InvalidInput
| InvalidQuantity
| InsufficientStock (material : string) (required current : Q)
| MaterialInUse
| EmptyRecipe
| MalformedBackup.

(** A row of the recipe form after the [parseInt] / [parseFloat] of
    [handleSubmit]; [None] is the [NaN] of [parseInt]. *)
Module FormRow.
Record t : Type := mk { materialId : option Z; qty : JsNum }.
End FormRow.

(** ** The ledger: state and handlers of [App] *)

Section Ledger.

Variable Stamp : Type.

Record State : Type := mkState
  { materials : list Material.t;
    recipes : list Recipe.t;
    salesLog : list (Sale.t Stamp);
    nextMaterialId : Z;
    nextRecipeId : Z;
    nextSaleId : Z }.

Definition setMaterials (f : list Material.t -> list Material.t) (st : State) : State :=
  mkState (f (materials st)) (recipes st) (salesLog st)
          (nextMaterialId st) (nextRecipeId st) (nextSaleId st).

Definition setRecipes (f : list Recipe.t -> list Recipe.t) (st : State) : State :=
  mkState (materials st) (f (recipes st)) (salesLog st)
          (nextMaterialId st) (nextRecipeId st) (nextSaleId st).

Definition setSalesLog (f : list (Sale.t Stamp) -> list (Sale.t Stamp)) (st : State) : State :=
  mkState (materials st) (recipes st) (f (salesLog st))
          (nextMaterialId st) (nextRecipeId st) (nextSaleId st).

Definition setNextMaterialId (f : Z -> Z) (st : State) : State :=
  mkState (materials st) (recipes st) (salesLog st)
          (f (nextMaterialId st)) (nextRecipeId st) (nextSaleId st).

Definition setNextRecipeId (f : Z -> Z) (st : State) : State :=
  mkState (materials st) (recipes st) (salesLog st)
          (nextMaterialId st) (f (nextRecipeId st)) (nextSaleId st).

Definition setNextSaleId (f : Z -> Z) (st : State) : State :=
  mkState (materials st) (recipes st) (salesLog st)
          (nextMaterialId st) (nextRecipeId st) (f (nextSaleId st)).

(** What a handler leaves behind. *)
Definition Outcome : Type := (State * option Alert)%type.

Definition rejected (st : State) (a : Alert) : Outcome := (st, Some a).
Definition committed (st : State) : Outcome := (st, None).

(** *** handleAddMaterial *)

Definition handleAddMaterial (st : State)
    (name : string) (stock deadline : JsNum) : Outcome :=
  let deadline := orElse deadline 5 in
  match name, stock with
  | EmptyString, _ => rejected st InvalidInput
  | _, NaN => rejected st InvalidInput
  | _, Num stock =>
      if Qltb stock 0 then rejected st InvalidInput
      else
        let newMaterial :=
          Material.mk (nextMaterialId st) name stock deadline 0 in
        committed
          (setNextMaterialId (fun prev => prev + 1)
             (setMaterials (fun prev => prev ++ [newMaterial]) st))
  end.

(** *** handleStockIn *)

Definition stockInOne (materialId : Z) (qty : Q) (m : Material.t) : Material.t :=
  if Material.id m =? materialId
  then Material.mk (Material.id m) (Material.name m)
                   (Material.stock m + qty)
                   (Material.deadline m) (Material.consumed m)
  else m.

Definition handleStockIn (st : State) (materialId : Z) (qty : JsNum) : Outcome :=
  match qty with
  | NaN => rejected st InvalidQuantity
  | Num q =>
      if Qle_bool q 0 then rejected st InvalidQuantity
      else committed (setMaterials (map (stockInOne materialId q)) st)
  end.

(** *** handleDeleteMaterial *)

Definition usesMaterial (materialId : Z) (recipe : Recipe.t) : bool :=
  existsb (fun item => Item.materialId item =? materialId) (Recipe.items recipe).

Definition isMaterialInUse (st : State) (materialId : Z) : bool :=
  existsb (usesMaterial materialId) (recipes st).

Definition handleDeleteMaterial (st : State) (confirmed : bool) (materialId : Z) : Outcome :=
  if isMaterialInUse st materialId then rejected st MaterialInUse
  else if confirmed
       then committed
              (setMaterials
                 (List.filter (fun m => negb (Material.id m =? materialId))) st)
       else committed st.

(** *** handleSellRecipe *)

Definition findMaterial (ms : list Material.t) (materialId : Z) : option Material.t :=
  find (fun m => Material.id m =? materialId) ms.

(** The [for ... of recipe.items] loop: the alert of the first item
    that cannot be served, if there is one. *)
Fixpoint checkItems (ms : list Material.t) (qty : Q) (items : list Item.t)
    : option Alert :=
  match items with
  | [] => None
  | item :: rest =>
      let required := (Item.qty item * qty)%Q in
      match findMaterial ms (Item.materialId item) with
      | None => Some (InsufficientStock "不明" required 0)
      | Some material =>
          if Qltb (Material.stock material) required
          then Some (InsufficientStock
                       (strOr (Material.name material) "不明")
                       required (orZero (Material.stock material)))
          else checkItems ms qty rest
      end
  end.

Definition findItem (items : list Item.t) (materialId : Z) : option Item.t :=
  find (fun i => Item.materialId i =? materialId) items.

Definition consume (recipe : Recipe.t) (qty : Q) (m : Material.t) : Material.t :=
  match findItem (Recipe.items recipe) (Material.id m) with
  | Some item =>
      let used := (Item.qty item * qty)%Q in
      Material.mk (Material.id m) (Material.name m)
                  (Material.stock m - used)
                  (Material.deadline m)
                  (orZero (Material.consumed m) + used)
  | None => m
  end.

Definition countSold (recipe : Recipe.t) (qty : Q) (r : Recipe.t) : Recipe.t :=
  if Recipe.id r =? Recipe.id recipe
  then Recipe.mk (Recipe.id r) (Recipe.name r) (Recipe.price r)
                 (Recipe.items r) (orZero (Recipe.soldCount r) + qty)
  else r.

(** [now] is what the new sale is stamped with ([getTodayKey()] or
    [new Date().toISOString()]). *)
Definition handleSellRecipe (st : State) (now : Stamp)
    (recipe : Recipe.t) (qty : JsNum) : Outcome :=
  match qty with
  | NaN => rejected st InvalidQuantity
  | Num q =>
      if Qle_bool q 0 then rejected st InvalidQuantity
      else
        match checkItems (materials st) q (Recipe.items recipe) with
        | Some a => rejected st a
        | None =>
            let newSale :=
              Sale.mk (nextSaleId st) (Recipe.id recipe) q
                      (orZero (Recipe.price recipe)) now in
            committed
              (setNextSaleId (fun prev => prev + 1)
                 (setSalesLog (fun prev => prev ++ [newSale])
                    (setRecipes (map (countSold recipe q))
                       (setMaterials (map (consume recipe q)) st))))
        end
  end.

(** *** handleDeleteRecipe *)

Definition handleDeleteRecipe (st : State) (confirmed : bool) (recipeId : Z) : Outcome :=
  if confirmed
  then committed
         (setSalesLog
            (List.filter (fun sale => negb (Sale.recipeId sale =? recipeId)))
            (setRecipes
               (List.filter (fun r => negb (Recipe.id r =? recipeId))) st))
  else committed st.

(** *** RecipeForm.handleSubmit *)

(** The [.filter] of the rows: [!isNaN(materialId) && materialId &&
    !isNaN(qty) && qty > 0]. *)
Definition keepRow (row : FormRow.t) : option Item.t :=
  match FormRow.materialId row, FormRow.qty row with
  | Some materialId, Num qty =>
      if (materialId =? 0) then None
      else if Qltb 0 qty then Some (Item.mk materialId qty)
      else None
  | _, _ => None
  end.

Definition handleSubmit (st : State)
    (name : string) (price : JsNum) (recipeItems : list FormRow.t) : Outcome :=
  let price := orElse price 0 in
  match name with
  | EmptyString => rejected st InvalidInput
  | _ =>
      let items := omap keepRow recipeItems in
      match items with
      | [] => rejected st EmptyRecipe
      | _ =>
          let newRecipe := Recipe.mk (nextRecipeId st) name price items 0 in
          committed
            (setNextRecipeId (fun prev => prev + 1)
               (setRecipes (fun prev => prev ++ [newRecipe]) st))
      end
  end.

(** *** Identifier counters: initial load and import *)

(** [Math.max(...ids, 0)]. *)
Definition maxWithZero (ids : list Z) : Z := fold_right Z.max 0 ids.

(** [loadFromStorage]: [None] is a key that is missing, unparsable or
    not an array. *)
Definition loadFromStorage {A : Type} (raw : option (list A)) (fallback : list A)
    : list A :=
  match raw with
  | Some parsed => parsed
  | None => fallback
  end.

(** The state [src/App.js] starts from. *)
Definition emptyState : State := mkState [] [] [] 1 1 1.

(** The mount effect of [src/App.js].  Stored records are taken with
    every field present, so the [??] defaults leave them as they are. *)
Definition initialLoad
    (rawMaterials : option (list Material.t))
    (rawRecipes : option (list Recipe.t))
    (rawSales : option (list (Sale.t Stamp))) : State :=
  let st := emptyState in
  let loadedMaterials := loadFromStorage rawMaterials [] in
  let st := setMaterials (fun _ => loadedMaterials) st in
  let st :=
    if (0 <? Z.of_nat (length loadedMaterials))
    then setNextMaterialId
           (fun _ => maxWithZero (map Material.id loadedMaterials) + 1) st
    else st in
  let loadedRecipes := loadFromStorage rawRecipes [] in
  let st := setRecipes (fun _ => loadedRecipes) st in
  let st :=
    if (0 <? Z.of_nat (length loadedRecipes))
    then setNextRecipeId
           (fun _ => maxWithZero (map Recipe.id loadedRecipes) + 1) st
    else st in
  let loadedSales := loadFromStorage rawSales [] in
  let st := setSalesLog (fun _ => loadedSales) st in
  if (0 <? Z.of_nat (length loadedSales))
  then setNextSaleId (fun _ => maxWithZero (map Sale.id loadedSales) + 1) st
  else st.

(** [Settings.handleImport].  Each argument is the parsed content of one
    CSV file of the archive, [None] when the archive lacks the file.
    The notice of a completed import is not an [Alert]. *)
Definition handleImport (st : State) (confirmed : bool)
    (materialsCsv : option (list Material.t))
    (recipesCsv : option (list Recipe.t))
    (salesLogCsv : option (list (Sale.t Stamp))) : Outcome :=
  if negb confirmed then committed st
  else
    match materialsCsv, recipesCsv, salesLogCsv with
    | Some newMaterials, Some newRecipes, Some newSalesLog =>
        let st := setMaterials (fun _ => newMaterials) st in
        let st := setRecipes (fun _ => newRecipes) st in
        let st := setSalesLog (fun _ => newSalesLog) st in
        let st :=
          setNextMaterialId
            (fun _ => if (0 <? Z.of_nat (length newMaterials))
                      then maxWithZero (map Material.id newMaterials) + 1
                      else 1) st in
        let st :=
          setNextRecipeId
            (fun _ => if (0 <? Z.of_nat (length newRecipes))
                      then maxWithZero (map Recipe.id newRecipes) + 1
                      else 1) st in
        let st :=
          setNextSaleId
            (fun _ => if (0 <? Z.of_nat (length newSalesLog))
                      then maxWithZero (map Sale.id newSalesLog) + 1
                      else 1) st in
        committed st
    | _, _, _ => rejected st MalformedBackup
    end.

End Ledger.

Arguments mkState {Stamp}.
Arguments materials {Stamp}.
Arguments recipes {Stamp}.
Arguments salesLog {Stamp}.
Arguments nextMaterialId {Stamp}.
Arguments nextRecipeId {Stamp}.
Arguments nextSaleId {Stamp}.
Arguments handleAddMaterial {Stamp}.
Arguments handleStockIn {Stamp}.
Arguments handleDeleteMaterial {Stamp}.
Arguments handleSellRecipe {Stamp}.
Arguments handleDeleteRecipe {Stamp}.
Arguments handleSubmit {Stamp}.
Arguments isMaterialInUse {Stamp}.
Arguments emptyState {Stamp}.
Arguments initialLoad {Stamp}.
Arguments handleImport {Stamp}.
Arguments setMaterials {Stamp}.
Arguments setRecipes {Stamp}.
Arguments setSalesLog {Stamp}.
Arguments setNextMaterialId {Stamp}.
Arguments setNextRecipeId {Stamp}.
Arguments setNextSaleId {Stamp}.
Arguments rejected {Stamp}.
Arguments committed {Stamp}.

(** ** Local time *)

Module Time.
Definition msPerHour : Z := 3600000.
Definition msPerDay : Z := 86400000.

(** [d.setHours(0, 0, 0, 0)]. *)
Definition startOfDay (t : Z) : Z := (t / msPerDay) * msPerDay.

(** [d.setHours(23, 59, 59, 999)]. *)
Definition endOfDay (t : Z) : Z := startOfDay t + (msPerDay - 1).

(** [d.getHours()]. *)
Definition getHours (t : Z) : Z := (t / msPerHour) mod 24.

(** [parseDateString]: local midnight of a calendar day. *)
Definition parseDateString (day : Z) : Z := day * msPerDay.
End Time.

(** ** A JavaScript [Map] with integer keys: insertion order is kept, and
    [set] on a key that is present overwrites in place. *)

Section JsMap.

Context {V : Type}.

Definition JsMap : Type := list (Z * V).

Definition mapGet (k : Z) (m : JsMap) : option V :=
  option_map snd (find (fun kv => fst kv =? k) m).

Definition mapHas (k : Z) (m : JsMap) : bool :=
  existsb (fun kv => fst kv =? k) m.

Fixpoint mapSet (k : Z) (v : V) (m : JsMap) : JsMap :=
  match m with
  | [] => [(k, v)]
  | (k', v') :: rest =>
      if k' =? k then (k, v) :: rest else (k', v') :: mapSet k v rest
  end.

Definition mapValues (m : JsMap) : list V := map snd m.

End JsMap.

Arguments JsMap : clear implicits.

Inductive FilterType : Type := today | all | custom.

Record Summary : Type := mkSummary { totalQty : Q; totalSales : Q }.

Definition findRecipe (recipes : list Recipe.t) (recipeId : Z) : option Recipe.t :=
  find (fun r => Recipe.id r =? recipeId) recipes.

(** [recipe ? recipe.name : '(削除済みの品名)']. *)
Definition recipeName (recipes : list Recipe.t) (recipeId : Z) : string :=
  match findRecipe recipes recipeId with
  | Some recipe => Recipe.name recipe
  | None => "(削除済みの品名)"
  end.

(** ** [StatsView] of [src/App.js]: sales carry a [date] key *)

Module DateKeyed.

(** The day a sale was recorded on ([getTodayKey()]). *)
Definition Stamp : Type := Z.

Module Entry.
Record t : Type := mk { name : string; qty : Q; sales : Q }.
End Entry.

Record Stats : Type := mkStats { summary : Summary; items : list Entry.t }.

Record Acc : Type := mkAcc { accSummary : Summary; perRecipe : JsMap Entry.t }.

(** The body of [filteredLog.forEach]. *)
Definition addSale (recipes : list Recipe.t) (acc : Acc) (sale : Sale.t Stamp) : Acc :=
  let saleAmount := (Sale.qty sale * Sale.pricePerUnit sale)%Q in
  let summary :=
    mkSummary (totalQty (accSummary acc) + Sale.qty sale)
              (totalSales (accSummary acc) + saleAmount) in
  let name := recipeName recipes (Sale.recipeId sale) in
  let entry :=
    match mapGet (Sale.recipeId sale) (perRecipe acc) with
    | Some e => e
    | None => Entry.mk name 0 0
    end in
  let entry :=
    Entry.mk (Entry.name entry) (Entry.qty entry + Sale.qty sale)
             (Entry.sales entry + saleAmount) in
  mkAcc summary (mapSet (Sale.recipeId sale) entry (perRecipe acc)).

Definition aggregate (recipes : list Recipe.t) (filteredLog : list (Sale.t Stamp)) : Stats :=
  let acc := fold_left (addSale recipes) filteredLog (mkAcc (mkSummary 0 0) []) in
  mkStats (accSummary acc) (mapValues (perRecipe acc)).

(** The [useMemo] body of [StatsView]; [todayKey] is [getTodayKey()]. *)
Definition computeStats (todayKey : Z)
    (salesLog : list (Sale.t Stamp)) (recipes : list Recipe.t)
    (filterType : FilterType) (startDate endDate : option Z) : Stats :=
  match filterType with
  | today =>
      aggregate recipes
        (List.filter (fun sale => Sale.stamp sale =? todayKey) salesLog)
  | custom =>
      match startDate, endDate with
      | Some s, Some e =>
          let start := Time.parseDateString s in
          let end_ := Time.endOfDay (Time.parseDateString e) in
          if end_ <? start then mkStats (mkSummary 0 0) []
          else
            aggregate recipes
              (List.filter
                 (fun sale =>
                    let saleDate := Time.parseDateString (Sale.stamp sale) in
                    (start <=? saleDate) && (saleDate <=? end_))
                 salesLog)
      | _, _ => mkStats (mkSummary 0 0) []
      end
  | all => aggregate recipes salesLog
  end.

End DateKeyed.

(** ** [StatsView] of the later revision: sales carry a [timestamp] and
    the statistics gain a series per hour of the day *)

Module Timestamped.

(** The instant [new Date(sale.timestamp || sale.date)] denotes; [None]
    is an invalid date. *)
Definition Stamp : Type := option Z.

Module Entry.
Record t : Type := mk { id : Z; name : string; qty : Q; sales : Q }.
End Entry.

Module Hourly.
(** [data] has one bucket per hour; [None] is [null]. *)
Record t : Type := mk { name : string; data : list (option Q) }.
End Hourly.

Record Stats : Type := mkStats
  { summary : Summary;
    perRecipeStats : list Entry.t;
    hourlyDatasets : list Hourly.t }.

Record Acc : Type := mkAcc
  { accSummary : Summary;
    perRecipe : JsMap Entry.t;
    hourlySales : JsMap Hourly.t }.

(** [saleDate >= lo && saleDate <= hi]; false on an invalid date. *)
Definition within (lo hi : Z) (sale : Sale.t Stamp) : bool :=
  match Sale.stamp sale with
  | Some saleDate => (lo <=? saleDate) && (saleDate <=? hi)
  | None => false
  end.

(** The part of the [useMemo] body that picks [log]. *)
Definition selectLog (now : Z) (salesLog : list (Sale.t Stamp))
    (filterType : FilterType) (startDate endDate : option Z)
    : list (Sale.t Stamp) :=
  match filterType with
  | today =>
      List.filter (within (Time.startOfDay now) (Time.endOfDay now)) salesLog
  | custom =>
      match startDate, endDate with
      | Some s, Some e =>
          let start := Time.startOfDay (Time.parseDateString s) in
          let end_ := Time.endOfDay (Time.parseDateString e) in
          if start <=? end_
          then List.filter (within start end_) salesLog
          else salesLog
      | _, _ => salesLog
      end
  | all => salesLog
  end.

(** [data[hour] || 0]. *)
Definition bucketOrZero (data : list (option Q)) (hour : nat) : Q :=
  match data !! hour with
  | Some (Some x) => orZero x
  | _ => 0%Q
  end.

(** [recipeHourData[hour] = (recipeHourData[hour] || 0) + sale.qty];
    on an invalid date [getHours()] is [NaN] and no bucket changes. *)
Definition addToBucket (stamp : Stamp) (qty : Q) (data : list (option Q))
    : list (option Q) :=
  match stamp with
  | Some t =>
      let hour := Z.to_nat (Time.getHours t) in
      <[hour := Some (bucketOrZero data hour + qty)%Q]> data
  | None => data
  end.

(** The body of [log.forEach]. *)
Definition addSale (recipes : list Recipe.t) (acc : Acc) (sale : Sale.t Stamp) : Acc :=
  let saleAmount := (Sale.qty sale * orZero (Sale.pricePerUnit sale))%Q in
  let summary :=
    mkSummary (totalQty (accSummary acc) + Sale.qty sale)
              (totalSales (accSummary acc) + saleAmount) in
  let name := recipeName recipes (Sale.recipeId sale) in
  let recipeEntry :=
    match mapGet (Sale.recipeId sale) (perRecipe acc) with
    | Some e => e
    | None => Entry.mk (Sale.recipeId sale) name 0 0
    end in
  let recipeEntry :=
    Entry.mk (Entry.id recipeEntry) (Entry.name recipeEntry)
             (Entry.qty recipeEntry + Sale.qty sale)
             (Entry.sales recipeEntry + saleAmount) in
  let perRecipe := mapSet (Sale.recipeId sale) recipeEntry (perRecipe acc) in
  let hourlySales :=
    if mapHas (Sale.recipeId sale) (hourlySales acc) then hourlySales acc
    else mapSet (Sale.recipeId sale) (Hourly.mk name (replicate 24 None))
                (hourlySales acc) in
  let hourlySales :=
    match mapGet (Sale.recipeId sale) hourlySales with
    | Some h =>
        mapSet (Sale.recipeId sale)
               (Hourly.mk (Hourly.name h)
                          (addToBucket (Sale.stamp sale) (Sale.qty sale) (Hourly.data h)))
               hourlySales
    | None => hourlySales
    end in
  mkAcc summary perRecipe hourlySales.

Definition aggregate (recipes : list Recipe.t) (log : list (Sale.t Stamp)) : Stats :=
  let acc := fold_left (addSale recipes) log (mkAcc (mkSummary 0 0) [] []) in
  mkStats (accSummary acc) (mapValues (perRecipe acc)) (mapValues (hourlySales acc)).

(** The [useMemo] body of [StatsView]; [now] is [new Date()]. *)
Definition computeStats (now : Z)
    (salesLog : list (Sale.t Stamp)) (recipes : list Recipe.t)
    (filterType : FilterType) (startDate endDate : option Z) : Stats :=
  aggregate recipes (selectLog now salesLog filterType startDate endDate).

End Timestamped.

(** The state the later revision starts from ([useState] seeds), at a
    moment [now] of the current day. *)
Definition todayAt (now hours minutes : Z) : Timestamped.Stamp :=
  Some (Time.startOfDay now + hours * Time.msPerHour + minutes * 60000).

Definition seedMaterials : list Material.t :=
  [ Material.mk 1 "玉ねぎ" 50 10 10;
    Material.mk 2 "豚肉" 30 5 5;
    Material.mk 3 "キャベツ" 40 8 8;
    Material.mk 4 "麺" 100 20 20 ].

Definition seedRecipes : list Recipe.t :=
  [ Recipe.mk 1 "豚玉" 600
      [Item.mk 1 1; Item.mk 2 (1 # 2); Item.mk 3 1] 3;
    Recipe.mk 2 "焼きそば" 750
      [Item.mk 4 1; Item.mk 3 (4 # 5); Item.mk 2 (7 # 10); Item.mk 1 (1 # 2)] 5 ].

Definition seedSales (now : Z) : list (Sale.t Timestamped.Stamp) :=
  [ Sale.mk 1 1 1 600 (todayAt now 8 0);
    Sale.mk 2 2 1 750 (todayAt now 8 30);
    Sale.mk 3 1 2 600 (todayAt now 9 0);
    Sale.mk 4 2 1 750 (todayAt now 9 15);
    Sale.mk 5 1 1 600 (todayAt now 10 0);
    Sale.mk 6 2 2 750 (todayAt now 10 45);
    Sale.mk 7 1 1 600 (todayAt now 11 30);
    Sale.mk 8 2 1 750 (todayAt now 12 0);
    Sale.mk 9 1 3 600 (todayAt now 13 0);
    Sale.mk 10 2 2 750 (todayAt now 13 30);
    Sale.mk 11 1 1 600 (todayAt now 14 0);
    Sale.mk 12 2 1 750 (todayAt now 14 15) ].

Definition seedState (now : Z) : State Timestamped.Stamp :=
  mkState seedMaterials seedRecipes (seedSales now) 5 3 13.

(** The mount effect of the later revision: a collection that is missing
    from storage falls back to the seed, and the counter of a collection
    that was stored empty is taken from the seed. *)
Definition seededLoad (now : Z)
    (rawMaterials : option (list Material.t))
    (rawRecipes : option (list Recipe.t))
    (rawSales : option (list (Sale.t Timestamped.Stamp)))
    : State Timestamped.Stamp :=
  let seed := seedState now in
  let initialMaterials := loadFromStorage rawMaterials (materials seed) in
  let st := setMaterials (fun _ => initialMaterials) seed in
  let st :=
    setNextMaterialId
      (fun _ => if (0 <? Z.of_nat (length initialMaterials))
                then maxWithZero (map Material.id initialMaterials) + 1
                else maxWithZero (map Material.id (materials seed)) + 1) st in
  let initialRecipes := loadFromStorage rawRecipes (recipes seed) in
  let st := setRecipes (fun _ => initialRecipes) st in
  let st :=
    setNextRecipeId
      (fun _ => if (0 <? Z.of_nat (length initialRecipes))
                then maxWithZero (map Recipe.id initialRecipes) + 1
                else maxWithZero (map Recipe.id (recipes seed)) + 1) st in
  let initialSales := loadFromStorage rawSales (salesLog seed) in
  let st := setSalesLog (fun _ => initialSales) st in
  setNextSaleId
    (fun _ => if (0 <? Z.of_nat (length initialSales))
              then maxWithZero (map Sale.id initialSales) + 1
              else maxWithZero (map Sale.id (salesLog seed)) + 1) st.

(** ** Sequences of operations *)

Section Operations.

Context {Stamp : Type}.

(** What the operator can do.  [SellRecipe] is the button of a row of
    [RecipesTable], which hands the recipe of that row to
    [handleSellRecipe]. *)
Inductive Op : Type :=
| AddMaterial (name : string) (stock deadline : JsNum)
| StockIn (materialId : Z) (qty : JsNum)
| DeleteMaterial (confirmed : bool) (materialId : Z)
| AddRecipe (name : string) (price : JsNum) (recipeItems : list FormRow.t)
| SellRecipe (now : Stamp) (row : nat) (qty : JsNum)
| DeleteRecipe (confirmed : bool) (recipeId : Z).

Definition perform (st : State Stamp) (op : Op) : State Stamp * option Alert :=
  match op with
  | AddMaterial name stock deadline => handleAddMaterial st name stock deadline
  | StockIn materialId qty => handleStockIn st materialId qty
  | DeleteMaterial confirmed materialId => handleDeleteMaterial st confirmed materialId
  | AddRecipe name price recipeItems => handleSubmit st name price recipeItems
  | SellRecipe now row qty =>
      match nth_error (recipes st) row with
      | Some recipe => handleSellRecipe st now recipe qty
      | None => committed st
      end
  | DeleteRecipe confirmed recipeId => handleDeleteRecipe st confirmed recipeId
  end.

Definition run (st : State Stamp) (ops : list Op) : State Stamp :=
  fold_left (fun st op => fst (perform st op)) ops st.

(** The invariants of the data model that the handlers maintain. *)
Record WellFormed (st : State Stamp) : Prop := mkWellFormed
  { wf_stock : List.Forall (fun m => (0 <= Material.stock m)%Q) (materials st);
    wf_material_ids : List.NoDup (map Material.id (materials st));
    wf_material_next :
      List.Forall (fun m => Material.id m < nextMaterialId st) (materials st);
    wf_recipe_ids : List.NoDup (map Recipe.id (recipes st));
    wf_recipe_next :
      List.Forall (fun r => Recipe.id r < nextRecipeId st) (recipes st);
    wf_item_qty :
      List.Forall
        (fun r => List.Forall (fun i => (0 < Item.qty i)%Q) (Recipe.items r))
        (recipes st) }.

(** From [st] to [st']: counters do not go back, and whatever keeps an
    identifier of [st] keeps at least its counter. *)
Record Grows (st st' : State Stamp) : Prop := mkGrows
  { grows_material_next : nextMaterialId st <= nextMaterialId st';
    grows_recipe_next : nextRecipeId st <= nextRecipeId st';
    grows_consumed :
      forall m', In m' (materials st') -> Material.id m' < nextMaterialId st ->
        exists m, In m (materials st) /\ Material.id m = Material.id m' /\
                  (Material.consumed m <= Material.consumed m')%Q;
    grows_soldCount :
      forall r', In r' (recipes st') -> Recipe.id r' < nextRecipeId st ->
        exists r, In r (recipes st) /\ Recipe.id r = Recipe.id r' /\
                  (Recipe.soldCount r <= Recipe.soldCount r')%Q }.

End Operations.

Arguments Op : clear implicits.

(** ** Vocabulary of the statements *)

(** An item the validation loop of [handleSellRecipe] stops at: its
    material is missing or short. *)
Definition shortOf (ms : list Material.t) (qty : Q) (item : Item.t) : Prop :=
  findMaterial ms (Item.materialId item) = None \/
  exists material,
    findMaterial ms (Item.materialId item) = Some material /\
    (Material.stock material < Item.qty item * qty)%Q.

(** An item the loop passes. *)
Definition servedBy (ms : list Material.t) (qty : Q) (item : Item.t) : Prop :=
  exists material,
    findMaterial ms (Item.materialId item) = Some material /\
    (Item.qty item * qty <= Material.stock material)%Q.

(** A quantity that is a positive integer. *)
Definition isPositiveInteger (qty : JsNum) : Prop :=
  match qty with
  | NaN => False
  | Num q => exists n : Z, 0 < n /\ (q == inject_Z n)%Q
  end.

(** A quantity the guard of [handleSellRecipe] stops. *)
Definition notPositive (qty : JsNum) : Prop :=
  match qty with
  | NaN => True
  | Num q => (q <= 0)%Q
  end.



(** A custom range that selects nothing: a date is absent, or the start
    is after the end. *)
Definition emptyRange (startDate endDate : option Z) : Prop :=
  match startDate, endDate with
  | Some s, Some e => e < s
  | _, _ => True
  end.

(** ** States and inputs used as examples *)

(** Two items [(A, 2); (B, 1000)] with plenty of A and too little of B. *)
Definition recipeAB : Recipe.t :=
  Recipe.mk 1 "AB" 100 [Item.mk 1 2; Item.mk 2 1000] 0.

Definition shortOfB : State unit :=
  mkState [Material.mk 1 "A" 10 5 0; Material.mk 2 "B" 1 5 0;
           Material.mk 3 "C" 7 5 0]
          [recipeAB] [] 4 2 1.

(** One material and a recipe that takes two of it. *)
Definition recipeA2 : Recipe.t := Recipe.mk 1 "A2" 100 [Item.mk 1 2] 0.

Definition tenOfA : State unit :=
  mkState [Material.mk 1 "A" 10 5 0] [recipeA2] [] 2 2 1.

(** One material, five in stock, and a recipe that lists it twice. *)
Definition recipeTwice : Recipe.t :=
  Recipe.mk 1 "AA" 100 [Item.mk 1 3; Item.mk 1 4] 0.

Definition fiveOfA : State unit :=
  mkState [Material.mk 1 "A" 5 5 0] [recipeTwice] [] 2 2 1.

(** A form row that names material 7 and takes one of it. *)
Definition rowOfSeven : FormRow.t := FormRow.mk (Some 7) (Num 1).

(** Two sales of the same morning: two of recipe 1 at 600 and one of
    recipe 2 at 750, at 8:00 and 8:30 of day 0. *)
Definition twoSales : list (Sale.t Timestamped.Stamp) :=
  [ Sale.mk 1 1 2 600 (Some 28800000);
    Sale.mk 2 2 1 750 (Some 30600000) ].

(** The same two sales with the date key of [src/App.js]. *)
Definition twoSalesByDate : list (Sale.t DateKeyed.Stamp) :=
  [ Sale.mk 1 1 2 600 0; Sale.mk 2 2 1 750 0 ].

(** A day at the counter, from the seed state. *)
Definition morningOps : list (Op Timestamped.Stamp) :=
  [ SellRecipe (todayAt 0 9 0) 0 (Num 1);
    StockIn 2 (Num 3);
    AddMaterial "塩" (Num 4) NaN ].

Definition afternoonOps : list (Op Timestamped.Stamp) :=
  [ SellRecipe (todayAt 0 13 0) 1 (Num 2);
    DeleteMaterial true 5;
    AddRecipe "塩焼き" (Num 500) [FormRow.mk (Some 2) (Num (1 # 2))];
    DeleteRecipe true 1 ].

(** ** Further vocabulary: identifiers and references *)


(** Sale identifiers are pairwise distinct and below the counter. *)
Definition SaleIdsFresh {Stamp : Type} (st : State Stamp) : Prop :=
  List.NoDup (map Sale.id (salesLog st)) /\
  List.Forall (fun s => Sale.id s < nextSaleId st) (salesLog st).

(** Every sale refers to a recipe of the store. *)
Definition SalesResolve {Stamp : Type} (st : State Stamp) : Prop :=
  forall sale, In sale (salesLog st) ->
    exists r, In r (recipes st) /\ Recipe.id r = Sale.recipeId sale.

(** [materialId] is the identifier of a material of [ms]. *)
Definition resolvesIn (ms : list Material.t) (materialId : Z) : Prop :=
  exists m, In m ms /\ Material.id m = materialId.

(** Every item of every recipe names a material of the store. *)
Definition ItemsResolve {Stamp : Type} (st : State Stamp) : Prop :=
  forall r item, In r (recipes st) -> In item (Recipe.items r) ->
    resolvesIn (materials st) (Item.materialId item).

(** The rows of a recipe form that survive its filter name materials of
    the store, as they do when they were picked in the form's select. *)
Definition opResolves {Stamp : Type} (st : State Stamp) (op : Op Stamp) : Prop :=
  match op with
  | AddRecipe _ _ rows =>
      forall item, In item (omap keepRow rows) ->
        resolvesIn (materials st) (Item.materialId item)
  | _ => True
  end.

Fixpoint opsResolve {Stamp : Type} (st : State Stamp) (ops : list (Op Stamp)) : Prop :=
  match ops with
  | [] => True
  | op :: rest => opResolves st op /\ opsResolve (fst (perform st op)) rest
  end.

(** ** [MaterialsTable]: the low-stock class of a row *)

(** [material.stock <= material.deadline]. *)
Definition isLow (material : Material.t) : bool :=
  Qle_bool (Material.stock material) (Material.deadline material).

(** ** Further vocabulary: what an operation leaves of a record *)




(** ** Further vocabulary: sums, days, first occurrences *)

(** The sum of [f] over a list. *)
Definition sumQ {A : Type} (f : A -> Q) (l : list A) : Q :=
  fold_right (fun x acc => (f x + acc)%Q) 0%Q l.

(** [f] of a sale of recipe [k], zero for a sale of another recipe. *)
Definition ofRecipe {Stamp : Type} (k : Z) (f : Sale.t Stamp -> Q)
    (sale : Sale.t Stamp) : Q :=
  if Sale.recipeId sale =? k then f sale else 0%Q.

(** What a sale brought in. *)
Definition revenue {Stamp : Type} (sale : Sale.t Stamp) : Q :=
  (Sale.qty sale * Sale.pricePerUnit sale)%Q.

(** A bucket of an hourly series as a number: no data counts for zero. *)
Definition bucketValue (bucket : option Q) : Q :=
  match bucket with
  | Some x => x
  | None => 0%Q
  end.

(** The day of local time an instant falls on. *)
Definition localDay (t : Z) : Z := t / Time.msPerDay.

(** The elements of a list without repetition, each at the place of its
    first occurrence. *)
Fixpoint distinct (ks : list Z) : list Z :=
  match ks with
  | [] => []
  | k :: rest => k :: List.filter (fun j => negb (j =? k)) (distinct rest)
  end.

(** Every sale of the log carries a valid timestamp. *)
Definition allStamped (log : list (Sale.t Timestamped.Stamp)) : Prop :=
  List.Forall (fun sale => Sale.stamp sale <> None) log.

(** The state of the loop of the later [StatsView] after the sales of
    [done]: what the totals, the per-recipe map and the hourly map hold. *)
Record StatsInv (recipes : list Recipe.t)
    (done : list (Sale.t Timestamped.Stamp)) (acc : Timestamped.Acc) : Prop :=
  mkStatsInv
  { inv_keys :
      map fst (Timestamped.perRecipe acc) = distinct (map Sale.recipeId done);
    inv_hourly_keys :
      map fst (Timestamped.hourlySales acc) = map fst (Timestamped.perRecipe acc);
    inv_totalQty :
      (totalQty (Timestamped.accSummary acc) == sumQ Sale.qty done)%Q;
    inv_totalSales :
      (totalSales (Timestamped.accSummary acc) == sumQ revenue done)%Q;
    inv_entry :
      forall k e, mapGet k (Timestamped.perRecipe acc) = Some e ->
        Timestamped.Entry.id e = k /\
        Timestamped.Entry.name e = recipeName recipes k /\
        (Timestamped.Entry.qty e == sumQ (ofRecipe k Sale.qty) done)%Q /\
        (Timestamped.Entry.sales e == sumQ (ofRecipe k revenue) done)%Q;
    inv_series :
      forall k h, mapGet k (Timestamped.hourlySales acc) = Some h ->
        Timestamped.Hourly.name h = recipeName recipes k /\
        length (Timestamped.Hourly.data h) = 24%nat /\
        (allStamped done ->
         (sumQ bucketValue (Timestamped.Hourly.data h)
          == sumQ (ofRecipe k Sale.qty) done)%Q) }.


(** ** [RecipeForm]: the rows of the form *)

(** [{ materialId: '', qty: 1 }] as [handleSubmit] reads it: [parseInt]
    of the empty string is [NaN]. *)
Definition blankRow : FormRow.t := FormRow.mk None (Num 1).

Definition addRecipeRow (recipeItems : list FormRow.t) : list FormRow.t :=
  recipeItems ++ [blankRow].

(** [l.filter((x, i) => p(x, i))], from index [i] on. *)
Fixpoint filterIndexed {A : Type} (p : A -> nat -> bool) (i : nat) (l : list A)
    : list A :=
  match l with
  | [] => []
  | x :: rest =>
      if p x i then x :: filterIndexed p (S i) rest
      else filterIndexed p (S i) rest
  end.

Definition removeRecipeRow (index : nat) (recipeItems : list FormRow.t)
    : list FormRow.t :=
  filterIndexed (fun _ i => negb (Nat.eqb i index)) 0 recipeItems.

(** * Properties *)

(** ** Comparisons *)

Lemma Qltb_lt (x y : Q) : Qltb x y = true <-> (x < y)%Q.
Proof.
  unfold Qltb. rewrite Bool.negb_true_iff.
  destruct (Qle_bool y x) eqn:E.
  - apply Qle_bool_iff in E. split; [discriminate | intros H; lra].
  - split; [intros _ | reflexivity].
    destruct (Qlt_le_dec x y) as [H | H]; [exact H |].
    apply Qle_bool_iff in H. congruence.
Qed.

Lemma Qltb_ge (x y : Q) : Qltb x y = false <-> (y <= x)%Q.
Proof.
  unfold Qltb. rewrite Bool.negb_false_iff. apply Qle_bool_iff.
Qed.

Lemma Qle_bool_gt (x y : Q) : Qle_bool x y = false <-> (y < x)%Q.
Proof.
  pose proof (Qltb_lt y x) as H. unfold Qltb in H.
  rewrite Bool.negb_true_iff in H. exact H.
Qed.

Lemma orZero_eq (x : Q) : (orZero x == x)%Q.
Proof.
  unfold orZero. destruct (Qeq_bool x 0) eqn:E; [| reflexivity].
  apply Qeq_bool_iff in E. symmetry. exact E.
Qed.

(** ** The validation loop of [handleSellRecipe] *)

Section Validation.

Variable ms : list Material.t.
Variable qty : Q.

Lemma checkItems_short (items : list Item.t) :
  (exists item, In item items /\ shortOf ms qty item) ->
  exists material required current,
    checkItems ms qty items = Some (InsufficientStock material required current).
Proof.
  induction items as [| item rest IH]; intros (bad & Hin & Hbad).
  - destruct Hin.
  - cbn [checkItems].
    destruct (findMaterial ms (Item.materialId item)) as [material |] eqn:Ef.
    + destruct (Qltb (Material.stock material) (Item.qty item * qty)) eqn:El.
      * eauto.
      * apply IH. destruct Hin as [-> | Hin]; [| eauto].
        exfalso. apply Qltb_ge in El.
        destruct Hbad as [Hnone | (m & Hsome & Hlt)]; [congruence |].
        rewrite Ef in Hsome. injection Hsome as <-. lra.
    + eauto.
Qed.

Lemma checkItems_pass (items : list Item.t) :
  checkItems ms qty items = None <-> List.Forall (servedBy ms qty) items.
Proof.
  induction items as [| item rest IH]; cbn [checkItems].
  - split; [constructor | reflexivity].
  - destruct (findMaterial ms (Item.materialId item)) as [material |] eqn:Ef.
    + destruct (Qltb (Material.stock material) (Item.qty item * qty)) eqn:El.
      * split; [discriminate |]. intros H. inversion H as [| ? ? (m & Hm & Hle) _]; subst.
        rewrite Ef in Hm. injection Hm as <-. apply Qltb_lt in El. lra.
      * rewrite IH. apply Qltb_ge in El. split.
        -- intros H. constructor; [exists material; auto | exact H].
        -- intros H. inversion H; assumption.
    + split; [discriminate |]. intros H. inversion H as [| ? ? (m & Hm & _) _]; subst.
      rewrite Ef in Hm. discriminate.
Qed.

Lemma checkItems_alert (items : list Item.t) (a : Alert) :
  checkItems ms qty items = Some a ->
  exists material required current, a = InsufficientStock material required current.
Proof.
  induction items as [| item rest IH]; cbn [checkItems]; [discriminate |].
  destruct (findMaterial ms (Item.materialId item)) as [material |].
  - destruct (Qltb (Material.stock material) (Item.qty item * qty)).
    + intros [= <-]. eauto.
    + exact IH.
  - intros [= <-]. eauto.
Qed.

End Validation.

(** ** Selling a recipe *)

(** C1. For every recipe and every quantity: whenever some item of the
    recipe resolves to no material, or to a material whose stock is below
    [qty * quantity], the sale is refused and the state that is left is
    the state before the call: no stock or consumed counter moved, no
    [soldCount] moved, no sale was appended, whatever the position of the
    failing item among the others.  For a quantity that passed the
    quantity guard the alert is the insufficient-stock one; a quantity
    that is not a number is refused whatever the items. *)
Theorem sell_all_or_nothing :
  forall (Stamp : Type) (st : State Stamp) (now : Stamp) (recipe : Recipe.t),
    handleSellRecipe st now recipe NaN = (st, Some InvalidQuantity) /\
    forall quantity : Q,
      (exists item, In item (Recipe.items recipe) /\
                    shortOf (materials st) quantity item) ->
      exists a,
        handleSellRecipe st now recipe (Num quantity) = (st, Some a) /\
        ((0 < quantity)%Q ->
         exists material required current,
           a = InsufficientStock material required current).
Proof.
  intros Stamp st now recipe. split; [reflexivity |].
  intros quantity Hbad.
  destruct (checkItems_short (materials st) quantity _ Hbad)
    as (material & required & current & Hc).
  unfold handleSellRecipe.
  destruct (Qle_bool quantity 0) eqn:Hq.
  - exists InvalidQuantity. split; [reflexivity |].
    intros Hpos. apply Qle_bool_iff in Hq. lra.
  - rewrite Hc. eexists. split; [reflexivity | eauto].
Qed.

Lemma sell_all_or_nothing_witness :
  exists a,
    handleSellRecipe shortOfB tt recipeAB (Num 1) = (shortOfB, Some a) /\
    ((0 < 1)%Q ->
     exists material required current,
       a = InsufficientStock material required current).
Proof.
  apply (proj2 (sell_all_or_nothing unit shortOfB tt recipeAB) 1%Q).
  exists (Item.mk 2 1000). split.
  - simpl. auto.
  - right. exists (Material.mk 2 "B" 1 5 0). split; reflexivity.
Defined.

(** C8, counterexample: three halves is not a positive integer, and the
    sale of three halves of a recipe goes through: no alert, a sale is
    logged and the state has changed. *)
Lemma sell_three_halves_accepted :
  ~ isPositiveInteger (Num (3 # 2)) /\
  snd (handleSellRecipe tenOfA tt recipeA2 (Num (3 # 2))) = None /\
  length (salesLog (fst (handleSellRecipe tenOfA tt recipeA2 (Num (3 # 2))))) = 1%nat /\
  fst (handleSellRecipe tenOfA tt recipeA2 (Num (3 # 2))) <> tenOfA.
Proof.
  split; [| split; [reflexivity | split; [reflexivity | discriminate]]].
  intros (n & _ & Hn). unfold Qeq in Hn. simpl in Hn. lia.
Qed.

(** C8, as the guard has it: a quantity that is not a number, or is zero
    or negative, is refused with the invalid-quantity alert and the state
    is left as it was; a quantity of one or more, integer or not, is never
    refused for being invalid. *)
Theorem sell_rejects_non_positive :
  forall (Stamp : Type) (st : State Stamp) (now : Stamp)
         (recipe : Recipe.t) (qty : JsNum),
    (notPositive qty ->
     handleSellRecipe st now recipe qty = (st, Some InvalidQuantity)) /\
    (forall q, qty = Num q -> (1 <= q)%Q ->
     snd (handleSellRecipe st now recipe qty) <> Some InvalidQuantity).
Proof.
  intros Stamp st now recipe qty. split.
  - destruct qty as [| q]; cbn [notPositive handleSellRecipe]; intros H.
    + reflexivity.
    + apply Qle_bool_iff in H. rewrite H. reflexivity.
  - intros q -> Hq. cbn [handleSellRecipe].
    assert (Hpos : Qle_bool q 0 = false) by (apply Qle_bool_gt; lra).
    rewrite Hpos.
    destruct (checkItems (materials st) q (Recipe.items recipe)) as [a |] eqn:Hc.
    + cbn. intros Heq. injection Heq as ->.
      apply checkItems_alert in Hc. destruct Hc as (m & r & c & Hc). discriminate.
    + cbn. discriminate.
Qed.

Lemma sell_rejects_non_positive_witness :
  handleSellRecipe tenOfA tt recipeA2 (Num 0) = (tenOfA, Some InvalidQuantity) /\
  snd (handleSellRecipe tenOfA tt recipeA2 (Num (3 # 2))) <> Some InvalidQuantity.
Proof.
  split.
  - apply (proj1 (sell_rejects_non_positive unit tenOfA tt recipeA2 (Num 0))).
    simpl. lra.
  - apply (proj2 (sell_rejects_non_positive unit tenOfA tt recipeA2 (Num (3 # 2)))
             (3 # 2) eq_refl).
    lra.
Defined.

(** ** Which item of a recipe a material is charged with *)






(** ** Deleting *)

Lemma in_filter_ne {A : Type} (key : A -> Z) (k : Z) (l : list A) (x : A) :
  In x (List.filter (fun y => negb (key y =? k)) l) <-> In x l /\ key x <> k.
Proof.
  rewrite filter_In, Bool.negb_true_iff, Z.eqb_neq. reflexivity.
Qed.

(** C6. Deleting a recipe, once confirmed, leaves exactly the recipes with
    another identifier and exactly the sales of other recipes: no sale
    that refers to the deleted recipe stays in the log, every other sale
    stays as it was.  Materials and counters are not touched. *)
Theorem deleteRecipe_cascades :
  forall (Stamp : Type) (st : State Stamp) (recipeId : Z),
    snd (handleDeleteRecipe st true recipeId) = None /\
    (forall r, In r (recipes (fst (handleDeleteRecipe st true recipeId))) <->
               In r (recipes st) /\ Recipe.id r <> recipeId) /\
    (forall sale, In sale (salesLog (fst (handleDeleteRecipe st true recipeId))) <->
                  In sale (salesLog st) /\ Sale.recipeId sale <> recipeId) /\
    materials (fst (handleDeleteRecipe st true recipeId)) = materials st /\
    nextMaterialId (fst (handleDeleteRecipe st true recipeId)) = nextMaterialId st /\
    nextRecipeId (fst (handleDeleteRecipe st true recipeId)) = nextRecipeId st /\
    nextSaleId (fst (handleDeleteRecipe st true recipeId)) = nextSaleId st.
Proof.
  intros Stamp st recipeId. cbn.
  split; [reflexivity |].
  split; [intros r; apply in_filter_ne |].
  split; [intros sale; apply in_filter_ne |].
  repeat split.
Qed.

Lemma isMaterialInUse_spec {Stamp : Type} (st : State Stamp) (materialId : Z) :
  isMaterialInUse st materialId = true <->
  exists recipe item,
    In recipe (recipes st) /\ In item (Recipe.items recipe) /\
    Item.materialId item = materialId.
Proof.
  unfold isMaterialInUse, usesMaterial. rewrite existsb_exists. split.
  - intros (recipe & Hr & Hex). apply existsb_exists in Hex.
    destruct Hex as (item & Hi & He). apply Z.eqb_eq in He. eauto.
  - intros (recipe & item & Hr & Hi & He). exists recipe. split; [exact Hr |].
    apply existsb_exists. exists item. split; [exact Hi |]. apply Z.eqb_eq. exact He.
Qed.

(** C7. Deleting a material is refused with the material-in-use alert
    exactly when some item of some recipe names the material, and then
    nothing changes.  Otherwise, once confirmed, exactly the materials
    with another identifier stay, and recipes, sales and counters are
    left as they were. *)
Theorem deleteMaterial_guarded :
  forall (Stamp : Type) (st : State Stamp) (confirmed : bool) (materialId : Z),
    (snd (handleDeleteMaterial st confirmed materialId) = Some MaterialInUse <->
     exists recipe item,
       In recipe (recipes st) /\ In item (Recipe.items recipe) /\
       Item.materialId item = materialId) /\
    (snd (handleDeleteMaterial st confirmed materialId) = Some MaterialInUse ->
     fst (handleDeleteMaterial st confirmed materialId) = st) /\
    (snd (handleDeleteMaterial st confirmed materialId) <> Some MaterialInUse ->
     snd (handleDeleteMaterial st true materialId) = None /\
     (forall m, In m (materials (fst (handleDeleteMaterial st true materialId))) <->
                In m (materials st) /\ Material.id m <> materialId) /\
     recipes (fst (handleDeleteMaterial st true materialId)) = recipes st /\
     salesLog (fst (handleDeleteMaterial st true materialId)) = salesLog st /\
     nextMaterialId (fst (handleDeleteMaterial st true materialId)) = nextMaterialId st /\
     nextRecipeId (fst (handleDeleteMaterial st true materialId)) = nextRecipeId st /\
     nextSaleId (fst (handleDeleteMaterial st true materialId)) = nextSaleId st).
Proof.
  intros Stamp st confirmed materialId.
  rewrite <- isMaterialInUse_spec. unfold handleDeleteMaterial.
  destruct (isMaterialInUse st materialId) eqn:Huse.
  - cbn. split; [tauto |]. split; [reflexivity | congruence].
  - split; [| split].
    + destruct confirmed; cbn; split; discriminate.
    + destruct confirmed; cbn; discriminate.
    + intros _. cbn.
      split; [reflexivity |].
      split; [intros m; apply in_filter_ne |].
      repeat split.
Qed.

Lemma deleteMaterial_guarded_witness :
  snd (handleDeleteMaterial tenOfA true 1) = Some MaterialInUse /\
  fst (handleDeleteMaterial tenOfA true 1) = tenOfA /\
  materials (fst (handleDeleteMaterial shortOfB true 3))
  = [Material.mk 1 "A" 10 5 0; Material.mk 2 "B" 1 5 0] /\
  recipes (fst (handleDeleteMaterial shortOfB true 3)) = recipes shortOfB.
Proof.
  assert (Huse : snd (handleDeleteMaterial tenOfA true 1) = Some MaterialInUse).
  { apply (proj1 (deleteMaterial_guarded unit tenOfA true 1)).
    exists recipeA2, (Item.mk 1 2). cbn. auto. }
  split; [exact Huse |]. split.
  - exact (proj1 (proj2 (deleteMaterial_guarded unit tenOfA true 1)) Huse).
  - split; [reflexivity |].
    apply (proj2 (proj2 (deleteMaterial_guarded unit shortOfB true 3))).
    cbn. discriminate.
Defined.

(** ** Adding a recipe *)

Lemma keepRow_None (row : FormRow.t) :
  keepRow row = None <->
  FormRow.materialId row = None \/ FormRow.materialId row = Some 0 \/
  notPositive (FormRow.qty row).
Proof.
  unfold keepRow, notPositive.
  destruct (FormRow.materialId row) as [z |], (FormRow.qty row) as [| q];
    try (split; [intros _; auto | reflexivity]).
  destruct (Z.eqb_spec z 0) as [-> | Hz].
  - split; [intros _; auto | reflexivity].
  - destruct (Qltb 0 q) eqn:Hq.
    + apply Qltb_lt in Hq. split; [discriminate |].
      intros [H | [H | H]]; [discriminate | congruence | lra].
    + apply Qltb_ge in Hq. split; [intros _; auto | reflexivity].
Qed.

Lemma keepRow_Some (row : FormRow.t) (item : Item.t) :
  keepRow row = Some item <->
  exists z q, FormRow.materialId row = Some z /\ z <> 0 /\
              FormRow.qty row = Num q /\ (0 < q)%Q /\ item = Item.mk z q.
Proof.
  unfold keepRow.
  destruct (FormRow.materialId row) as [z |], (FormRow.qty row) as [| q];
    try (split; [discriminate | intros (? & ? & ? & ? & ? & _); discriminate]).
  destruct (Z.eqb_spec z 0) as [-> | Hz].
  - split; [discriminate | intros (? & ? & [= <-] & ? & _); congruence].
  - destruct (Qltb 0 q) eqn:Hq.
    + apply Qltb_lt in Hq. split.
      * intros [= <-]. exists z, q. auto.
      * intros (z' & q' & [= <-] & _ & [= <-] & _ & ->). reflexivity.
    + apply Qltb_ge in Hq. split; [discriminate |].
      intros (z' & q' & _ & _ & [= <-] & H & _). lra.
Qed.

Lemma in_omap_keepRow (rows : list FormRow.t) (item : Item.t) :
  In item (omap keepRow rows) <->
  exists row, In row rows /\ keepRow row = Some item.
Proof.
  rewrite <- list_elem_of_In, list_elem_of_omap.
  split; intros (row & H1 & H2); exists row; split; auto;
    apply list_elem_of_In; exact H1.
Qed.

(** C9, counterexample: no material has identifier 7, and a row that
    names material 7 is kept: the recipe is added with that item. *)
Lemma addRecipe_keeps_unresolvable_item :
  findMaterial (materials (@emptyState unit)) 7 = None /\
  handleSubmit (@emptyState unit) "X" (Num 100) [rowOfSeven]
  = (mkState [] [Recipe.mk 1 "X" 100 [Item.mk 7 1] 0] [] 1 2 1, None).
Proof.
  split; reflexivity.
Qed.

(** C9, as the form has it: a row is dropped exactly when its material
    identifier is not a number or is zero, or its quantity is not a number
    or is not positive; whether a material with that identifier exists is
    not looked at.  With a name given, if no row is left the submission is
    refused with the empty-recipe alert and nothing changes; otherwise one
    recipe is appended, with the next identifier, a sold count of zero and
    exactly the rows that are left, in their order. *)
Theorem addRecipe_filters_rows :
  forall (Stamp : Type) (st : State Stamp)
         (name : string) (price : JsNum) (rows : list FormRow.t),
    name <> "" ->
    (forall row, keepRow row = None <->
       FormRow.materialId row = None \/ FormRow.materialId row = Some 0 \/
       notPositive (FormRow.qty row)) /\
    (forall item, In item (omap keepRow rows) <->
       exists row z q,
         In row rows /\ FormRow.materialId row = Some z /\ z <> 0 /\
         FormRow.qty row = Num q /\ (0 < q)%Q /\ item = Item.mk z q) /\
    (omap keepRow rows = [] ->
     handleSubmit st name price rows = (st, Some EmptyRecipe)) /\
    (omap keepRow rows <> [] ->
     handleSubmit st name price rows
     = (mkState (materials st)
                (recipes st ++
                   [Recipe.mk (nextRecipeId st) name (orElse price 0)
                              (omap keepRow rows) 0])
                (salesLog st)
                (nextMaterialId st) (nextRecipeId st + 1) (nextSaleId st),
        None)).
Proof.
  intros Stamp st name price rows Hname.
  split; [exact keepRow_None |]. split; [| split].
  - intros item. rewrite in_omap_keepRow. split.
    + intros (row & Hin & Hk). apply keepRow_Some in Hk.
      destruct Hk as (z & q & Hk). exists row, z, q. tauto.
    + intros (row & z & q & Hin & Hk). exists row. split; [exact Hin |].
      apply keepRow_Some. exists z, q. exact Hk.
  - intros Hnil. unfold handleSubmit. rewrite Hnil.
    destruct name; [congruence | reflexivity].
  - intros Hsome. unfold handleSubmit.
    destruct name; [congruence |].
    destruct (omap keepRow rows); [congruence | reflexivity].
Qed.

Lemma addRecipe_filters_rows_witness :
  handleSubmit tenOfA "B" (Num 100) [FormRow.mk None (Num 1); FormRow.mk (Some 1) (Num 0)]
  = (tenOfA, Some EmptyRecipe) /\
  handleSubmit tenOfA "B" (Num 100) [FormRow.mk None (Num 1); FormRow.mk (Some 1) (Num 2)]
  = (mkState (materials tenOfA)
             (recipes tenOfA ++ [Recipe.mk 2 "B" 100 [Item.mk 1 2] 0])
             (salesLog tenOfA) 2 3 1, None).
Proof.
  split.
  - apply (addRecipe_filters_rows unit tenOfA "B" (Num 100)
             [FormRow.mk None (Num 1); FormRow.mk (Some 1) (Num 0)]).
    + discriminate.
    + reflexivity.
  - apply (addRecipe_filters_rows unit tenOfA "B" (Num 100)
             [FormRow.mk None (Num 1); FormRow.mk (Some 1) (Num 2)]).
    + discriminate.
    + discriminate.
Defined.

(** ** Identifier counters *)

Lemma maxWithZero_nonneg (ids : list Z) : 0 <= maxWithZero ids.
Proof.
  unfold maxWithZero. induction ids as [| i ids IH]; cbn; lia.
Qed.

Lemma maxWithZero_upper (ids : list Z) :
  List.Forall (fun i => i <= maxWithZero ids) ids.
Proof.
  unfold maxWithZero. induction ids as [| i ids IH]; cbn; constructor.
  - lia.
  - eapply List.Forall_impl; [| exact IH]. cbn. intros j Hj. lia.
Qed.




(** The mount effect of the later revision is not an import: on nothing
    stored it keeps the seed and its counters, and on collections stored
    empty it leaves them empty with the counters of the seed. *)
Lemma seededLoad_counters (now : Z) :
  seededLoad now None None None = seedState now /\
  seededLoad now (Some []) (Some []) (Some []) = mkState [] [] [] 5 3 13.
Proof.
  split; reflexivity.
Qed.



(** ** Statistics *)

Lemma inverted_range (s e : Z) :
  e < s ->
  Time.endOfDay (Time.parseDateString e) < Time.parseDateString s /\
  Time.startOfDay (Time.parseDateString s) = Time.parseDateString s.
Proof.
  intros H. unfold Time.endOfDay, Time.startOfDay, Time.parseDateString, Time.msPerDay.
  rewrite !Z.div_mul by lia. lia.
Qed.

(** In [src/App.js] a custom range that selects nothing gives zero totals
    and no per-recipe entry, for every sales log. *)
Lemma dateKeyed_empty_range_is_empty
    (todayKey : Z) (salesLog : list (Sale.t DateKeyed.Stamp))
    (recipes : list Recipe.t) (startDate endDate : option Z) :
  emptyRange startDate endDate ->
  DateKeyed.computeStats todayKey salesLog recipes custom startDate endDate
  = DateKeyed.mkStats (mkSummary 0 0) [].
Proof.
  unfold emptyRange, DateKeyed.computeStats.
  destruct startDate as [s |], endDate as [e |]; try reflexivity.
  intros H. apply inverted_range in H. destruct H as [H _].
  apply Z.ltb_lt in H. rewrite H. reflexivity.
Qed.

(** In the later revision the same range leaves the whole log selected. *)
Lemma timestamped_empty_range_is_all
    (now : Z) (salesLog : list (Sale.t Timestamped.Stamp))
    (recipes : list Recipe.t) (startDate endDate : option Z) :
  emptyRange startDate endDate ->
  Timestamped.computeStats now salesLog recipes custom startDate endDate
  = Timestamped.computeStats now salesLog recipes all startDate endDate.
Proof.
  unfold emptyRange, Timestamped.computeStats, Timestamped.selectLog.
  destruct startDate as [s |], endDate as [e |]; try reflexivity.
  intros H. apply inverted_range in H. destruct H as [H1 H2].
  rewrite H2. replace (_ <=? _) with false; [reflexivity |].
  symmetry. apply Z.leb_gt. exact H1.
Qed.

(** C3, on the later revision: with the start a day after the end, and
    with the start date absent, the statistics over the two sales of the
    example are those of the whole log, totals 3 and 1950 and two entries
    per breakdown, not zero totals and empty breakdowns; [src/App.js]
    gives the empty statistics on the same range. *)
Theorem custom_empty_range_shows_whole_log :
  Timestamped.computeStats 0 twoSales seedRecipes custom (Some 2) (Some 1)
  = Timestamped.computeStats 0 twoSales seedRecipes all (Some 2) (Some 1) /\
  Timestamped.summary
    (Timestamped.computeStats 0 twoSales seedRecipes custom (Some 2) (Some 1))
  = mkSummary 3 1950 /\
  length (Timestamped.perRecipeStats
            (Timestamped.computeStats 0 twoSales seedRecipes custom (Some 2) (Some 1)))
  = 2%nat /\
  length (Timestamped.hourlyDatasets
            (Timestamped.computeStats 0 twoSales seedRecipes custom (Some 2) (Some 1)))
  = 2%nat /\
  Timestamped.summary
    (Timestamped.computeStats 0 twoSales seedRecipes custom None (Some 1))
  = mkSummary 3 1950 /\
  DateKeyed.computeStats 0 twoSalesByDate seedRecipes custom (Some 2) (Some 1)
  = DateKeyed.mkStats (mkSummary 0 0) [].
Proof.
  repeat split; vm_compute; reflexivity.
Qed.

(** C4. With the filter [all], two sales in hour 8, two of recipe 1 at
    600 and one of recipe 2 at 750, give totals 3 and 1950, one entry per
    recipe in the order of first occurrence, and per recipe a series of 24
    buckets with 2, respectively 1, in bucket 8 and the no-data marker in
    every other bucket. *)
Theorem stats_of_two_sales :
  forall (now : Z) (recipes : list Recipe.t) (id1 id2 t1 t2 : Z)
         (startDate endDate : option Z),
    Time.getHours t1 = 8 ->
    Time.getHours t2 = 8 ->
    let stats :=
      Timestamped.computeStats now
        [Sale.mk id1 1 2 600 (Some t1); Sale.mk id2 2 1 750 (Some t2)]
        recipes all startDate endDate in
    Timestamped.summary stats = mkSummary 3 1950 /\
    Timestamped.perRecipeStats stats
    = [ Timestamped.Entry.mk 1 (recipeName recipes 1) 2 1200;
        Timestamped.Entry.mk 2 (recipeName recipes 2) 1 750 ] /\
    exists data1 data2 : list (option Q),
      Timestamped.hourlyDatasets stats
      = [ Timestamped.Hourly.mk (recipeName recipes 1) data1;
          Timestamped.Hourly.mk (recipeName recipes 2) data2 ] /\
      length data1 = 24%nat /\ length data2 = 24%nat /\
      data1 !! 8%nat = Some (Some 2%Q) /\
      data2 !! 8%nat = Some (Some 1%Q) /\
      forall hour : nat, (hour < 24)%nat -> hour <> 8%nat ->
        data1 !! hour = Some None /\ data2 !! hour = Some None.
Proof.
  intros now recipes id1 id2 t1 t2 startDate endDate H1 H2 stats.
  subst stats.
  unfold Timestamped.computeStats, Timestamped.selectLog, Timestamped.aggregate.
  cbn [fold_left].
  unfold Timestamped.addSale at 2. cbn.
  unfold Timestamped.addSale. cbn.
  rewrite H1, H2. cbn.
  split; [reflexivity |]. split; [reflexivity |].
  eexists _, _. split; [reflexivity |].
  split; [reflexivity |]. split; [reflexivity |].
  split; [reflexivity |]. split; [reflexivity |].
  intros hour Hlt Hne.
  do 24 (destruct hour as [| hour]; [try (split; reflexivity); congruence |]).
  lia.
Qed.

Lemma stats_of_two_sales_witness :
  Timestamped.summary
    (Timestamped.computeStats 0 twoSales seedRecipes all None None)
  = mkSummary 3 1950.
Proof.
  apply (stats_of_two_sales 0 seedRecipes 1 2 28800000 30600000 None None);
    reflexivity.
Defined.

(** ** Invariants of the ledger *)

Lemma NoDup_snoc_fresh (ids : list Z) (next : Z) :
  List.NoDup ids -> List.Forall (fun i => i < next) ids ->
  List.NoDup (ids ++ [next]).
Proof.
  intros Hnd Hlt. induction Hnd as [| i ids Hni Hnd IH]; cbn.
  - constructor; [intros [] | constructor].
  - inversion Hlt as [| ? ? Hi Hrest]; subst. constructor.
    + rewrite in_app_iff. intros [H | [H | []]]; [contradiction | lia].
    + apply IH. exact Hrest.
Qed.

Lemma NoDup_map_filter {A : Type} (key : A -> Z) (p : A -> bool) (l : list A) :
  List.NoDup (map key l) -> List.NoDup (map key (List.filter p l)).
Proof.
  induction l as [| x l IH]; cbn; intros Hnd; [constructor |].
  inversion Hnd as [| ? ? Hni Hrest]; subst.
  destruct (p x); cbn; [constructor |]; auto.
  intros Hin. apply Hni. apply in_map_iff in Hin.
  destruct Hin as (y & Hy & Hin). apply filter_In in Hin.
  apply in_map_iff. exists y. tauto.
Qed.

Lemma NoDup_map_same {A : Type} (key : A -> Z) (l : list A) (x y : A) :
  List.NoDup (map key l) -> In x l -> In y l -> key x = key y -> x = y.
Proof.
  induction l as [| z l IH]; cbn; intros Hnd Hx Hy Hk; [destruct Hx |].
  inversion Hnd as [| ? ? Hni Hrest]; subst.
  destruct Hx as [-> | Hx], Hy as [-> | Hy]; auto.
  - exfalso. apply Hni. rewrite Hk. apply in_map. exact Hy.
  - exfalso. apply Hni. rewrite <- Hk. apply in_map. exact Hx.
Qed.

Lemma map_key_preserved {A : Type} (key : A -> Z) (f : A -> A) (l : list A) :
  (forall x, key (f x) = key x) -> map key (map f l) = map key l.
Proof.
  intros H. rewrite map_map. apply map_ext. exact H.
Qed.

Lemma Forall_filter_keep {A : Type} (P : A -> Prop) (p : A -> bool) (l : list A) :
  List.Forall P l -> List.Forall P (List.filter p l).
Proof.
  rewrite !List.Forall_forall. intros H x Hx. apply filter_In in Hx. apply H. tauto.
Qed.

Lemma Forall_map_keep {A : Type} (P : A -> Prop) (f : A -> A) (l : list A) :
  (forall x, In x l -> P x -> P (f x)) ->
  List.Forall P l -> List.Forall P (map f l).
Proof.
  rewrite !List.Forall_forall. intros Hf H y Hy.
  apply in_map_iff in Hy. destruct Hy as (x & <- & Hx). auto.
Qed.

Lemma consume_id (recipe : Recipe.t) (qty : Q) (m : Material.t) :
  Material.id (consume recipe qty m) = Material.id m.
Proof.
  unfold consume. destruct (findItem _ _); reflexivity.
Qed.

Lemma stockInOne_id (materialId : Z) (qty : Q) (m : Material.t) :
  Material.id (stockInOne materialId qty m) = Material.id m.
Proof.
  unfold stockInOne. destruct (_ =? _); reflexivity.
Qed.

Lemma countSold_id (recipe : Recipe.t) (qty : Q) (r : Recipe.t) :
  Recipe.id (countSold recipe qty r) = Recipe.id r.
Proof.
  unfold countSold. destruct (_ =? _); reflexivity.
Qed.

Lemma countSold_items (recipe : Recipe.t) (qty : Q) (r : Recipe.t) :
  Recipe.items (countSold recipe qty r) = Recipe.items r.
Proof.
  unfold countSold. destruct (_ =? _); reflexivity.
Qed.

Lemma countSold_soldCount (recipe : Recipe.t) (qty : Q) (r : Recipe.t) :
  (0 < qty)%Q ->
  (Recipe.soldCount r <= Recipe.soldCount (countSold recipe qty r))%Q.
Proof.
  intros Hq. unfold countSold. destruct (_ =? _); cbn; [| lra].
  pose proof (orZero_eq (Recipe.soldCount r)). lra.
Qed.

Lemma findMaterial_some (ms : list Material.t) (materialId : Z) (m : Material.t) :
  findMaterial ms materialId = Some m -> In m ms /\ Material.id m = materialId.
Proof.
  intros H. apply find_some in H. rewrite Z.eqb_eq in H. exact H.
Qed.

Lemma findItem_some (items : list Item.t) (materialId : Z) (item : Item.t) :
  findItem items materialId = Some item ->
  In item items /\ Item.materialId item = materialId.
Proof.
  intros H. apply find_some in H. rewrite Z.eqb_eq in H. exact H.
Qed.

(** What [consume] does to a material of a well-formed store when every
    item of the recipe passed the validation loop. *)
Lemma consume_sound (ms : list Material.t) (recipe : Recipe.t) (qty : Q)
    (m : Material.t) :
  List.NoDup (map Material.id ms) ->
  List.Forall (servedBy ms qty) (Recipe.items recipe) ->
  List.Forall (fun i => (0 < Item.qty i)%Q) (Recipe.items recipe) ->
  (0 < qty)%Q ->
  In m ms ->
  (0 <= Material.stock m)%Q ->
  (0 <= Material.stock (consume recipe qty m))%Q /\
  (Material.consumed m <= Material.consumed (consume recipe qty m))%Q.
Proof.
  intros Hnd Hserved Hqty Hq Hin Hstock. unfold consume.
  destruct (findItem (Recipe.items recipe) (Material.id m)) as [item |] eqn:Hf;
    [| split; [exact Hstock | lra]].
  apply findItem_some in Hf. destruct Hf as [Hitem Hid].
  rewrite List.Forall_forall in Hserved, Hqty.
  destruct (Hserved item Hitem) as (m0 & Hm0 & Hle).
  apply findMaterial_some in Hm0. destruct Hm0 as [Hin0 Hid0].
  assert (m0 = m) as ->.
  { apply (NoDup_map_same Material.id ms); auto. congruence. }
  pose proof (Hqty item Hitem) as Hpos.
  assert (0 <= Item.qty item * qty)%Q by (apply Qmult_le_0_compat; lra).
  pose proof (orZero_eq (Material.consumed m)).
  cbn. split; lra.
Qed.

Section Preservation.

Context {Stamp : Type}.
Implicit Types st : State Stamp.

Lemma Grows_refl st : Grows st st.
Proof.
  constructor; try lia.
  - intros m' Hin _. exists m'. repeat split; auto. lra.
  - intros r' Hin _. exists r'. repeat split; auto. lra.
Qed.

Lemma Grows_trans st1 st2 st3 : Grows st1 st2 -> Grows st2 st3 -> Grows st1 st3.
Proof.
  intros [Hm12 Hr12 Hc12 Hs12] [Hm23 Hr23 Hc23 Hs23]. constructor; try lia.
  - intros m3 Hin3 Hlt.
    destruct (Hc23 m3 Hin3) as (m2 & Hin2 & Hid2 & Hle2); [lia |].
    destruct (Hc12 m2 Hin2) as (m1 & Hin1 & Hid1 & Hle1); [lia |].
    exists m1. repeat split; auto; [congruence | lra].
  - intros r3 Hin3 Hlt.
    destruct (Hs23 r3 Hin3) as (r2 & Hin2 & Hid2 & Hle2); [lia |].
    destruct (Hs12 r2 Hin2) as (r1 & Hin1 & Hid1 & Hle1); [lia |].
    exists r1. repeat split; auto; [congruence | lra].
Qed.

Lemma addMaterial_preserves st name stock deadline :
  WellFormed st ->
  WellFormed (fst (handleAddMaterial st name stock deadline)) /\
  Grows st (fst (handleAddMaterial st name stock deadline)).
Proof.
  intros Hwf. unfold handleAddMaterial.
  destruct name as [| c name]; [split; [exact Hwf | apply Grows_refl] |].
  destruct stock as [| stock]; [split; [exact Hwf | apply Grows_refl] |].
  destruct (Qltb stock 0) eqn:Hs; [split; [exact Hwf | apply Grows_refl] |].
  apply Qltb_ge in Hs. destruct Hwf as [H1 H2 H3 H4 H5 H6]. cbn. split.
  - constructor; cbn; auto.
    + apply List.Forall_app. split; [exact H1 | repeat constructor; exact Hs].
    + rewrite map_app. cbn. apply NoDup_snoc_fresh; [exact H2 |].
      apply List.Forall_map. exact H3.
    + apply List.Forall_app. split.
      * eapply List.Forall_impl; [| exact H3]. cbn. intros; lia.
      * repeat constructor. cbn. lia.
  - constructor; cbn; try lia.
    + intros m' Hin Hlt. apply in_app_iff in Hin.
      destruct Hin as [Hin | [<- | []]]; [| cbn in Hlt; lia].
      exists m'. repeat split; auto. lra.
    + intros r' Hin _. exists r'. repeat split; auto. lra.
Qed.

Lemma stockIn_preserves st materialId qty :
  WellFormed st ->
  WellFormed (fst (handleStockIn st materialId qty)) /\
  Grows st (fst (handleStockIn st materialId qty)).
Proof.
  intros Hwf. unfold handleStockIn.
  destruct qty as [| q]; [split; [exact Hwf | apply Grows_refl] |].
  destruct (Qle_bool q 0) eqn:Hq; [split; [exact Hwf | apply Grows_refl] |].
  apply Qle_bool_gt in Hq. destruct Hwf as [H1 H2 H3 H4 H5 H6]. cbn. split.
  - constructor; cbn; auto.
    + apply Forall_map_keep; [| exact H1]. intros m _ Hm.
      unfold stockInOne. destruct (_ =? _); cbn; lra.
    + rewrite (map_key_preserved Material.id); [exact H2 |].
      intros m. apply stockInOne_id.
    + apply Forall_map_keep; [| exact H3]. intros m _ Hm.
      rewrite stockInOne_id. exact Hm.
  - constructor; cbn; try lia.
    + intros m' Hin _. apply in_map_iff in Hin. destruct Hin as (m & <- & Hin).
      exists m. split; [exact Hin |]. split; [symmetry; apply stockInOne_id |].
      unfold stockInOne. destruct (_ =? _); cbn; lra.
    + intros r' Hin _. exists r'. repeat split; auto. lra.
Qed.

Lemma deleteMaterial_preserves st confirmed materialId :
  WellFormed st ->
  WellFormed (fst (handleDeleteMaterial st confirmed materialId)) /\
  Grows st (fst (handleDeleteMaterial st confirmed materialId)).
Proof.
  intros Hwf. unfold handleDeleteMaterial.
  destruct (isMaterialInUse st materialId); [split; [exact Hwf | apply Grows_refl] |].
  destruct confirmed; [| split; [exact Hwf | apply Grows_refl]].
  destruct Hwf as [H1 H2 H3 H4 H5 H6]. cbn. split.
  - constructor; cbn; auto using Forall_filter_keep, NoDup_map_filter.
  - constructor; cbn; try lia.
    + intros m' Hin _. apply filter_In in Hin.
      exists m'. repeat split; try tauto. lra.
    + intros r' Hin _. exists r'. repeat split; auto. lra.
Qed.

Lemma deleteRecipe_preserves st confirmed recipeId :
  WellFormed st ->
  WellFormed (fst (handleDeleteRecipe st confirmed recipeId)) /\
  Grows st (fst (handleDeleteRecipe st confirmed recipeId)).
Proof.
  intros Hwf. unfold handleDeleteRecipe.
  destruct confirmed; [| split; [exact Hwf | apply Grows_refl]].
  destruct Hwf as [H1 H2 H3 H4 H5 H6]. cbn. split.
  - constructor; cbn; auto using Forall_filter_keep, NoDup_map_filter.
  - constructor; cbn; try lia.
    + intros m' Hin _. exists m'. repeat split; auto. lra.
    + intros r' Hin _. apply filter_In in Hin.
      exists r'. repeat split; try tauto. lra.
Qed.

Lemma submit_preserves st name price rows :
  WellFormed st ->
  WellFormed (fst (handleSubmit st name price rows)) /\
  Grows st (fst (handleSubmit st name price rows)).
Proof.
  intros Hwf. unfold handleSubmit.
  destruct name as [| c name]; [split; [exact Hwf | apply Grows_refl] |].
  destruct (omap keepRow rows) as [| item items] eqn:Hitems;
    [split; [exact Hwf | apply Grows_refl] |].
  destruct Hwf as [H1 H2 H3 H4 H5 H6]. cbn. split.
  - constructor; cbn; auto.
    + rewrite map_app. cbn. apply NoDup_snoc_fresh; [exact H4 |].
      apply List.Forall_map. exact H5.
    + apply List.Forall_app. split.
      * eapply List.Forall_impl; [| exact H5]. cbn. intros; lia.
      * repeat constructor. cbn. lia.
    + apply List.Forall_app. split; [exact H6 |].
      constructor; [| constructor]. cbn [Recipe.items].
      rewrite <- Hitems. apply List.Forall_forall. intros i Hi.
      apply in_omap_keepRow in Hi. destruct Hi as (row & _ & Hk).
      apply keepRow_Some in Hk. destruct Hk as (z & q & _ & _ & _ & Hq & ->).
      exact Hq.
  - constructor; cbn; try lia.
    + intros m' Hin _. exists m'. repeat split; auto. lra.
    + intros r' Hin Hlt. apply in_app_iff in Hin.
      destruct Hin as [Hin | [<- | []]]; [| cbn in Hlt; lia].
      exists r'. repeat split; auto. lra.
Qed.

Lemma sell_preserves st now recipe qty :
  In recipe (recipes st) ->
  WellFormed st ->
  WellFormed (fst (handleSellRecipe st now recipe qty)) /\
  Grows st (fst (handleSellRecipe st now recipe qty)).
Proof.
  intros Hrecipe Hwf. unfold handleSellRecipe.
  destruct qty as [| q]; [split; [exact Hwf | apply Grows_refl] |].
  destruct (Qle_bool q 0) eqn:Hq; [split; [exact Hwf | apply Grows_refl] |].
  destruct (checkItems (materials st) q (Recipe.items recipe)) eqn:Hc;
    [split; [exact Hwf | apply Grows_refl] |].
  apply Qle_bool_gt in Hq. apply checkItems_pass in Hc.
  destruct Hwf as [H1 H2 H3 H4 H5 H6].
  assert (Hqty : List.Forall (fun i => (0 < Item.qty i)%Q) (Recipe.items recipe)).
  { rewrite List.Forall_forall in H6. apply H6. exact Hrecipe. }
  assert (Hsound : forall m, In m (materials st) ->
            (0 <= Material.stock (consume recipe q m))%Q /\
            (Material.consumed m <= Material.consumed (consume recipe q m))%Q).
  { intros m Hm. apply (consume_sound (materials st)); auto.
    rewrite List.Forall_forall in H1. apply H1. exact Hm. }
  cbn. split.
  - constructor; cbn.
    + apply List.Forall_forall. intros m' Hin. apply in_map_iff in Hin.
      destruct Hin as (m & <- & Hin). apply Hsound. exact Hin.
    + rewrite (map_key_preserved Material.id); [exact H2 |].
      intros m. apply consume_id.
    + apply Forall_map_keep; [| exact H3]. intros m _ Hm.
      rewrite consume_id. exact Hm.
    + rewrite (map_key_preserved Recipe.id); [exact H4 |].
      intros r. apply countSold_id.
    + apply Forall_map_keep; [| exact H5]. intros r _ Hr.
      rewrite countSold_id. exact Hr.
    + apply Forall_map_keep; [| exact H6]. intros r _ Hr.
      rewrite countSold_items. exact Hr.
  - constructor; cbn; try lia.
    + intros m' Hin _. apply in_map_iff in Hin. destruct Hin as (m & <- & Hin).
      exists m. split; [exact Hin |]. split; [symmetry; apply consume_id |].
      apply Hsound. exact Hin.
    + intros r' Hin _. apply in_map_iff in Hin. destruct Hin as (r & <- & Hin).
      exists r. split; [exact Hin |]. split; [symmetry; apply countSold_id |].
      apply countSold_soldCount. exact Hq.
Qed.

Lemma perform_preserves st (op : Op Stamp) :
  WellFormed st ->
  WellFormed (fst (perform st op)) /\ Grows st (fst (perform st op)).
Proof.
  intros Hwf. destruct op; cbn [perform].
  - apply addMaterial_preserves. exact Hwf.
  - apply stockIn_preserves. exact Hwf.
  - apply deleteMaterial_preserves. exact Hwf.
  - apply submit_preserves. exact Hwf.
  - destruct (nth_error (recipes st) row) as [recipe |] eqn:Hrow.
    + apply sell_preserves; [| exact Hwf]. eapply nth_error_In. exact Hrow.
    + split; [exact Hwf | apply Grows_refl].
  - apply deleteRecipe_preserves. exact Hwf.
Qed.

Lemma run_preserves (ops : list (Op Stamp)) st :
  WellFormed st -> WellFormed (run st ops) /\ Grows st (run st ops).
Proof.
  revert st. induction ops as [| op ops IH]; intros st Hwf; cbn.
  - split; [exact Hwf | apply Grows_refl].
  - destruct (perform_preserves st op Hwf) as [Hwf1 Hg1].
    destruct (IH _ Hwf1) as [Hwf2 Hg2].
    split; [exact Hwf2 |]. eapply Grows_trans; eassumption.
Qed.

End Preservation.

Lemma emptyState_WellFormed (Stamp : Type) : WellFormed (@emptyState Stamp).
Proof.
  constructor; cbn; constructor.
Qed.

Lemma seedState_WellFormed (now : Z) : WellFormed (seedState now).
Proof.
  constructor; cbn.
  - repeat constructor; cbn; lra.
  - repeat constructor; cbn; intuition discriminate.
  - repeat constructor.
  - repeat constructor; cbn; intuition discriminate.
  - repeat constructor.
  - repeat constructor; cbn; lra.
Qed.



(** * Further properties of the ledger *)

(** ** Counters after a load *)

Lemma below_maxWithZero {A : Type} (key : A -> Z) (l : list A) :
  List.Forall (fun x => key x < maxWithZero (map key l) + 1) l.
Proof.
  pose proof (maxWithZero_upper (map key l)) as H.
  rewrite List.Forall_map in H.
  eapply List.Forall_impl; [| exact H]. cbn. intros x Hx. lia.
Qed.

Lemma below_counter_or_one {A : Type} (key : A -> Z) (l : list A) :
  List.Forall
    (fun x => key x < (if 0 <? Z.of_nat (length l)
                       then maxWithZero (map key l) + 1 else 1)) l.
Proof.
  destruct l as [| x l]; [constructor |].
  replace (0 <? Z.of_nat (length (x :: l))) with true
    by (symmetry; apply Z.ltb_lt; rewrite length_cons; lia).
  apply below_maxWithZero.
Qed.



(** ** Sales along a sequence of operations *)

Section SalesPreservation.

Context {Stamp : Type}.
Implicit Types st : State Stamp.

Lemma sell_outcome st now recipe qty :
  fst (handleSellRecipe st now recipe qty) = st \/
  exists q,
    qty = Num q /\ (0 < q)%Q /\
    List.Forall (servedBy (materials st) q) (Recipe.items recipe) /\
    fst (handleSellRecipe st now recipe qty)
    = mkState (map (consume recipe q) (materials st))
              (map (countSold recipe q) (recipes st))
              (salesLog st ++
                 [Sale.mk (nextSaleId st) (Recipe.id recipe) q
                          (orZero (Recipe.price recipe)) now])
              (nextMaterialId st) (nextRecipeId st) (nextSaleId st + 1).
Proof.
  unfold handleSellRecipe.
  destruct qty as [| q]; [left; reflexivity |].
  destruct (Qle_bool q 0) eqn:Hq; [left; reflexivity |].
  destruct (checkItems (materials st) q (Recipe.items recipe)) eqn:Hc;
    [left; reflexivity |].
  right. exists q. apply Qle_bool_gt in Hq. apply checkItems_pass in Hc.
  repeat split; auto.
Qed.

Lemma perform_sales st (op : Op Stamp) :
  (salesLog (fst (perform st op)) = salesLog st /\
   nextSaleId (fst (perform st op)) = nextSaleId st) \/
  (exists sale,
     Sale.id sale = nextSaleId st /\
     salesLog (fst (perform st op)) = salesLog st ++ [sale] /\
     nextSaleId (fst (perform st op)) = nextSaleId st + 1) \/
  (exists recipeId,
     salesLog (fst (perform st op))
     = List.filter (fun sale => negb (Sale.recipeId sale =? recipeId)) (salesLog st) /\
     nextSaleId (fst (perform st op)) = nextSaleId st).
Proof.
  destruct op; cbn [perform].
  - left. unfold handleAddMaterial.
    destruct name; [auto |]. destruct stock; [auto |].
    destruct (Qltb q 0); auto.
  - left. unfold handleStockIn. destruct qty; [auto |].
    destruct (Qle_bool q 0); auto.
  - left. unfold handleDeleteMaterial.
    destruct (isMaterialInUse st materialId); [auto |]. destruct confirmed; auto.
  - left. unfold handleSubmit. destruct name; [auto |].
    destruct (omap keepRow recipeItems); auto.
  - destruct (nth_error (recipes st) row) as [recipe |]; [| left; auto].
    destruct (sell_outcome st now recipe qty) as [-> | (q & _ & _ & _ & ->)].
    + left. auto.
    + right. left.
      exists (Sale.mk (nextSaleId st) (Recipe.id recipe) q
                      (orZero (Recipe.price recipe)) now).
      cbn. repeat split.
  - destruct confirmed; [| left; auto].
    right. right. exists recipeId. cbn. auto.
Qed.

Lemma perform_keeps_sale_ids_fresh st (op : Op Stamp) :
  SaleIdsFresh st -> SaleIdsFresh (fst (perform st op)).
Proof.
  unfold SaleIdsFresh. intros [Hnd Hlt].
  destruct (perform_sales st op)
    as [[-> ->] | [(sale & Hid & -> & ->) | (recipeId & -> & ->)]].
  - auto.
  - split.
    + rewrite map_app. cbn. rewrite Hid. apply NoDup_snoc_fresh; [exact Hnd |].
      apply List.Forall_map. exact Hlt.
    + apply List.Forall_app. split.
      * eapply List.Forall_impl; [| exact Hlt]. cbn. intros; lia.
      * repeat constructor. lia.
  - split; [apply NoDup_map_filter; exact Hnd | apply Forall_filter_keep; exact Hlt].
Qed.

Lemma perform_keeps_sales_resolved st (op : Op Stamp) :
  SalesResolve st -> SalesResolve (fst (perform st op)).
Proof.
  unfold SalesResolve. intros H. destruct op; cbn [perform].
  - unfold handleAddMaterial.
    destruct name; [exact H |]. destruct stock; [exact H |].
    destruct (Qltb q 0); exact H.
  - unfold handleStockIn. destruct qty; [exact H |].
    destruct (Qle_bool q 0); exact H.
  - unfold handleDeleteMaterial.
    destruct (isMaterialInUse st materialId); [exact H |].
    destruct confirmed; exact H.
  - unfold handleSubmit. destruct name; [exact H |].
    destruct (omap keepRow recipeItems); [exact H |].
    cbn. intros sale Hin. destruct (H sale Hin) as (r & Hr & Hid).
    exists r. split; [apply in_app_iff; left; exact Hr | exact Hid].
  - destruct (nth_error (recipes st) row) as [recipe |] eqn:Hrow; [| exact H].
    apply nth_error_In in Hrow.
    destruct (sell_outcome st now recipe qty) as [-> | (q & _ & _ & _ & ->)];
      [exact H |].
    cbn. intros sale Hin. apply in_app_iff in Hin.
    destruct Hin as [Hin | [<- | []]].
    + destruct (H sale Hin) as (r & Hr & Hid).
      exists (countSold recipe q r). split; [apply in_map; exact Hr |].
      rewrite countSold_id. exact Hid.
    + exists (countSold recipe q recipe). split; [apply in_map; exact Hrow |].
      rewrite countSold_id. reflexivity.
  - destruct confirmed; [| exact H].
    cbn. intros sale Hin. apply in_filter_ne in Hin. destruct Hin as [Hin Hne].
    destruct (H sale Hin) as (r & Hr & Hid).
    exists r. split; [| exact Hid]. apply in_filter_ne. split; [exact Hr | congruence].
Qed.

End SalesPreservation.

(** X2. Along any sequence of the six operations, from a state whose
    sales have pairwise distinct identifiers below the sale counter, the
    sales keep pairwise distinct identifiers below the counter. *)
Theorem sale_ids_stay_fresh :
  forall (Stamp : Type) (ops : list (Op Stamp)) (st : State Stamp),
    SaleIdsFresh st -> SaleIdsFresh (run st ops).
Proof.
  intros Stamp ops. induction ops as [| op ops IH]; intros st H; cbn.
  - exact H.
  - apply IH. apply perform_keeps_sale_ids_fresh. exact H.
Qed.

(** X3. Along any sequence of the six operations, from a state in which
    every sale refers to a recipe of the store, every sale still refers to
    a recipe of the store: no operation leaves a dangling sale. *)
Theorem sales_never_dangle :
  forall (Stamp : Type) (ops : list (Op Stamp)) (st : State Stamp),
    SalesResolve st -> SalesResolve (run st ops).
Proof.
  intros Stamp ops. induction ops as [| op ops IH]; intros st H; cbn.
  - exact H.
  - apply IH. apply perform_keeps_sales_resolved. exact H.
Qed.

Lemma seedState_SaleIdsFresh (now : Z) : SaleIdsFresh (seedState now).
Proof.
  split; cbn.
  - repeat constructor; cbn; intuition discriminate.
  - repeat constructor.
Qed.

Lemma seedState_SalesResolve (now : Z) : SalesResolve (seedState now).
Proof.
  intros sale Hin. cbn in Hin.
  repeat (destruct Hin as [<- | Hin];
          [first [ exists (nth 0 seedRecipes (Recipe.mk 0 "" 0 [] 0));
                   split; [cbn; auto | reflexivity]
                 | exists (nth 1 seedRecipes (Recipe.mk 0 "" 0 [] 0));
                   split; [cbn; auto | reflexivity] ] |]).
  destruct Hin.
Qed.

Lemma sale_ids_stay_fresh_witness :
  SaleIdsFresh (run (seedState 0) (morningOps ++ afternoonOps)).
Proof.
  apply (sale_ids_stay_fresh Timestamped.Stamp (morningOps ++ afternoonOps) (seedState 0)).
  apply seedState_SaleIdsFresh.
Defined.

Lemma sales_never_dangle_witness :
  SalesResolve (run (seedState 0) (morningOps ++ afternoonOps)).
Proof.
  apply (sales_never_dangle Timestamped.Stamp (morningOps ++ afternoonOps) (seedState 0)).
  apply seedState_SalesResolve.
Defined.

(** ** References from recipes to materials *)

Section ItemsPreservation.

Context {Stamp : Type}.
Implicit Types st : State Stamp.

Lemma resolvesIn_map (f : Material.t -> Material.t) (ms : list Material.t) (i : Z) :
  (forall m, Material.id (f m) = Material.id m) ->
  resolvesIn ms i -> resolvesIn (map f ms) i.
Proof.
  intros Hf (m & Hin & Hid). exists (f m). split; [apply in_map; exact Hin |].
  rewrite Hf. exact Hid.
Qed.

Lemma resolvesIn_find (ms : list Material.t) (i : Z) :
  findMaterial ms i <> None -> resolvesIn ms i.
Proof.
  destruct (findMaterial ms i) as [m |] eqn:Hf; [intros _ | congruence].
  apply findMaterial_some in Hf. exists m. exact Hf.
Qed.

Lemma perform_keeps_items_resolved st (op : Op Stamp) :
  ItemsResolve st -> opResolves st op -> ItemsResolve (fst (perform st op)).
Proof.
  unfold ItemsResolve. intros H Hop. destruct op; cbn [perform opResolves] in *.
  - unfold handleAddMaterial.
    destruct name; [exact H |]. destruct stock; [exact H |].
    destruct (Qltb q 0); [exact H |].
    cbn. intros r item Hr Hi. destruct (H r item Hr Hi) as (m & Hm & Hid).
    exists m. split; [apply in_app_iff; left; exact Hm | exact Hid].
  - unfold handleStockIn. destruct qty; [exact H |].
    destruct (Qle_bool q 0); [exact H |].
    cbn. intros r item Hr Hi. apply resolvesIn_map; [| eauto].
    intros m. apply stockInOne_id.
  - unfold handleDeleteMaterial.
    destruct (isMaterialInUse st materialId) eqn:Huse; [exact H |].
    destruct confirmed; [| exact H].
    cbn. intros r item Hr Hi. destruct (H r item Hr Hi) as (m & Hm & Hid).
    exists m. split; [| exact Hid]. apply in_filter_ne. split; [exact Hm |].
    intros Heq. assert (isMaterialInUse st materialId = true); [| congruence].
    apply isMaterialInUse_spec. exists r, item. repeat split; auto. congruence.
  - unfold handleSubmit. destruct name; [exact H |].
    destruct (omap keepRow recipeItems) as [| i items] eqn:Hitems; [exact H |].
    cbn. intros r item Hr Hi. apply in_app_iff in Hr.
    destruct Hr as [Hr | [<- | []]]; [eauto |].
    cbn in Hi. apply Hop. exact Hi.
  - destruct (nth_error (recipes st) row) as [recipe |]; [| exact H].
    destruct (sell_outcome st now recipe qty) as [-> | (q & _ & _ & _ & ->)];
      [exact H |].
    cbn. intros r' item Hr Hi. apply in_map_iff in Hr.
    destruct Hr as (r & <- & Hr). rewrite countSold_items in Hi.
    apply resolvesIn_map; [| eauto]. intros m. apply consume_id.
  - destruct confirmed; [| exact H].
    cbn. intros r item Hr Hi. apply in_filter_ne in Hr. destruct Hr as [Hr _]. eauto.
Qed.

End ItemsPreservation.

(** X4. From a state in which every item of every recipe names a material
    of the store, and along any sequence of the six operations in which
    the rows a recipe form keeps name materials of the store at that
    moment, every item of every recipe still names a material of the
    store; in particular deleting materials never breaks a recipe. *)
Theorem recipe_items_stay_resolved :
  forall (Stamp : Type) (ops : list (Op Stamp)) (st : State Stamp),
    ItemsResolve st -> opsResolve st ops -> ItemsResolve (run st ops).
Proof.
  intros Stamp ops. induction ops as [| op ops IH]; intros st H Hops; cbn.
  - exact H.
  - destruct Hops as [Hop Hrest]. apply IH; [| exact Hrest].
    apply perform_keeps_items_resolved; assumption.
Qed.

Lemma seedState_ItemsResolve (now : Z) : ItemsResolve (seedState now).
Proof.
  intros r item Hr Hi. cbn in Hr.
  repeat (destruct Hr as [<- | Hr];
          [cbn in Hi;
           repeat (destruct Hi as [<- | Hi];
                   [first [ exists (nth 0 seedMaterials (Material.mk 0 "" 0 0 0));
                            split; [cbn; auto | reflexivity]
                          | exists (nth 1 seedMaterials (Material.mk 0 "" 0 0 0));
                            split; [cbn; auto | reflexivity]
                          | exists (nth 2 seedMaterials (Material.mk 0 "" 0 0 0));
                            split; [cbn; auto | reflexivity]
                          | exists (nth 3 seedMaterials (Material.mk 0 "" 0 0 0));
                            split; [cbn; auto | reflexivity] ] |]);
           destruct Hi |]).
  destruct Hr.
Qed.

Lemma recipe_items_stay_resolved_witness :
  ItemsResolve (run (seedState 0) (morningOps ++ afternoonOps)).
Proof.
  apply (recipe_items_stay_resolved Timestamped.Stamp
           (morningOps ++ afternoonOps) (seedState 0)).
  - apply seedState_ItemsResolve.
  - cbn [opsResolve app morningOps afternoonOps]. repeat split; try exact I.
    intros item Hin. apply resolvesIn_find.
    vm_compute in Hin. destruct Hin as [<- | []].
    vm_compute. discriminate.
Defined.

(** ** What a sale and a stock-in leave of the records *)

Lemma Forall2_map_self {A : Type} (R : A -> A -> Prop) (f : A -> A) (l : list A) :
  (forall x, In x l -> R x (f x)) -> List.Forall2 R l (map f l).
Proof.
  induction l as [| x l IH]; intros H; cbn; constructor.
  - apply H. left. reflexivity.
  - apply IH. intros y Hy. apply H. right. exact Hy.
Qed.

Lemma Forall2_self {A : Type} (R : A -> A -> Prop) (l : list A) :
  (forall x, In x l -> R x x) -> List.Forall2 R l l.
Proof.
  intros H. rewrite <- (map_id l) at 2. apply Forall2_map_self. exact H.
Qed.





Lemma map_unchanged {A : Type} (f : A -> A) (l : list A) :
  (forall x, In x l -> f x = x) -> map f l = l.
Proof.
  induction l as [| x l IH]; intros H; cbn; [reflexivity |].
  rewrite H by (left; reflexivity). f_equal. apply IH.
  intros y Hy. apply H. right. exact Hy.
Qed.

Lemma filter_unchanged {A : Type} (p : A -> bool) (l : list A) :
  (forall x, In x l -> p x = true) -> List.filter p l = l.
Proof.
  induction l as [| x l IH]; intros H; cbn; [reflexivity |].
  rewrite H by (left; reflexivity). f_equal. apply IH.
  intros y Hy. apply H. right. exact Hy.
Qed.

(** X6. A stock-in for an identifier that no material has changes
    nothing, whatever the quantity, and raises an alert only when the
    quantity itself is refused. *)
Theorem stockIn_unknown_material_changes_nothing :
  forall (Stamp : Type) (st : State Stamp) (materialId : Z) (qty : JsNum),
    (forall m, In m (materials st) -> Material.id m <> materialId) ->
    fst (handleStockIn st materialId qty) = st /\
    (snd (handleStockIn st materialId qty) = None <-> ~ notPositive qty).
Proof.
  intros Stamp st materialId qty Hnone. unfold handleStockIn.
  destruct qty as [| q]; cbn [notPositive].
  - split; [reflexivity |]. split; [discriminate | tauto].
  - destruct (Qle_bool q 0) eqn:Hq.
    + apply Qle_bool_iff in Hq. split; [reflexivity |].
      split; [discriminate | tauto].
    + apply Qle_bool_gt in Hq. cbn. split; [| split; [intros _; lra | reflexivity]].
      destruct st as [ms rs ss nm nr ns]. unfold setMaterials. cbn in *. f_equal.
      apply map_unchanged. intros m Hm. unfold stockInOne.
      destruct (Z.eqb_spec (Material.id m) materialId) as [E | _]; [| reflexivity].
      exfalso. apply (Hnone m Hm E).
Qed.

Lemma stockIn_unknown_material_changes_nothing_witness :
  fst (handleStockIn tenOfA 9 (Num 3)) = tenOfA /\
  (snd (handleStockIn tenOfA 9 (Num 3)) = None <-> ~ notPositive (Num 3)).
Proof.
  apply (stockIn_unknown_material_changes_nothing unit tenOfA 9 (Num 3)).
  intros m [<- | []]. discriminate.
Defined.

(** ** Deleting twice, creating and deleting *)

Lemma filter_ne_twice {A : Type} (key : A -> Z) (k : Z) (l : list A) :
  List.filter (fun y => negb (key y =? k))
    (List.filter (fun y => negb (key y =? k)) l)
  = List.filter (fun y => negb (key y =? k)) l.
Proof.
  apply filter_unchanged. intros x Hx. apply filter_In in Hx. tauto.
Qed.

(** X7. Deleting again what was just deleted changes nothing: after a
    confirmed [handleDeleteRecipe], a second one for the same identifier
    leaves the state as it is, confirmed or not; after a confirmed
    [handleDeleteMaterial], refused or not, a second one for the same
    identifier leaves the state as it is. *)
Theorem deleting_twice_is_deleting_once :
  forall (Stamp : Type) (st : State Stamp) (confirmed : bool) (k : Z),
    fst (handleDeleteRecipe (fst (handleDeleteRecipe st true k)) confirmed k)
    = fst (handleDeleteRecipe st true k) /\
    fst (handleDeleteMaterial (fst (handleDeleteMaterial st true k)) confirmed k)
    = fst (handleDeleteMaterial st true k).
Proof.
  intros Stamp st confirmed k. split.
  - destruct confirmed; [| reflexivity].
    destruct st as [ms rs ss nm nr ns]. cbn. unfold setRecipes, setSalesLog. cbn.
    rewrite !filter_ne_twice. reflexivity.
  - unfold handleDeleteMaterial at 2 3.
    destruct (isMaterialInUse st k) eqn:Huse; cbn [fst rejected committed].
    + unfold handleDeleteMaterial. rewrite Huse. reflexivity.
    + unfold handleDeleteMaterial.
      replace (isMaterialInUse (setMaterials _ st) k) with false
        by (symmetry; exact Huse).
      destruct confirmed; [| reflexivity].
      destruct st as [ms rs ss nm nr ns]. cbn. unfold setMaterials. cbn.
      rewrite filter_ne_twice. reflexivity.
Qed.

Lemma filter_drops_last {A : Type} (key : A -> Z) (k : Z) (l : list A) (x : A) :
  List.Forall (fun y => key y < k) l -> key x = k ->
  List.filter (fun y => negb (key y =? k)) (l ++ [x]) = l.
Proof.
  intros Hl Hx. rewrite List.filter_app. cbn. rewrite Hx, Z.eqb_refl. cbn.
  rewrite app_nil_r. apply filter_unchanged. intros y Hy.
  rewrite List.Forall_forall in Hl. apply Bool.negb_true_iff, Z.eqb_neq.
  specialize (Hl y Hy). lia.
Qed.

(** X8. A material that was just added can be deleted again, and that
    leaves the materials as they were before the addition, with only the
    material counter advanced: provided the identifiers in use are below
    the counter and no recipe item names the identifier the counter is
    about to give out. *)
Theorem added_material_can_be_deleted :
  forall (Stamp : Type) (st : State Stamp) (name : string) (stock deadline : JsNum),
    List.Forall (fun m => Material.id m < nextMaterialId st) (materials st) ->
    isMaterialInUse st (nextMaterialId st) = false ->
    snd (handleAddMaterial st name stock deadline) = None ->
    handleDeleteMaterial (fst (handleAddMaterial st name stock deadline)) true
      (nextMaterialId st)
    = (mkState (materials st) (recipes st) (salesLog st)
               (nextMaterialId st + 1) (nextRecipeId st) (nextSaleId st), None).
Proof.
  intros Stamp st name stock deadline Hlt Huse. unfold handleAddMaterial.
  destruct name as [| c name]; [discriminate |].
  destruct stock as [| stock]; [discriminate |].
  destruct (Qltb stock 0); [discriminate |]. intros _.
  destruct st as [ms rs ss nm nr ns]. cbn in *.
  unfold handleDeleteMaterial, isMaterialInUse in *. cbn in *. rewrite Huse.
  unfold setMaterials, committed. cbn.
  rewrite (filter_drops_last Material.id) by (auto; reflexivity). reflexivity.
Qed.

Lemma added_material_can_be_deleted_witness :
  handleDeleteMaterial (fst (handleAddMaterial tenOfA "B" (Num 3) NaN)) true 2
  = (mkState (materials tenOfA) (recipes tenOfA) (salesLog tenOfA) 3 2 1, None).
Proof.
  apply (added_material_can_be_deleted unit tenOfA "B" (Num 3) NaN).
  - repeat constructor.
  - reflexivity.
  - reflexivity.
Defined.

(** X9. A recipe that was just added can be deleted again, and that
    leaves the recipes and the sales as they were before the addition,
    with only the recipe counter advanced: provided the recipe identifiers
    in use are below the counter and no sale refers to the identifier the
    counter is about to give out. *)
Theorem added_recipe_can_be_deleted :
  forall (Stamp : Type) (st : State Stamp)
         (name : string) (price : JsNum) (rows : list FormRow.t),
    List.Forall (fun r => Recipe.id r < nextRecipeId st) (recipes st) ->
    List.Forall (fun s => Sale.recipeId s <> nextRecipeId st) (salesLog st) ->
    snd (handleSubmit st name price rows) = None ->
    handleDeleteRecipe (fst (handleSubmit st name price rows)) true (nextRecipeId st)
    = (mkState (materials st) (recipes st) (salesLog st)
               (nextMaterialId st) (nextRecipeId st + 1) (nextSaleId st), None).
Proof.
  intros Stamp st name price rows Hlt Hsales. unfold handleSubmit.
  destruct name as [| c name]; [discriminate |].
  destruct (omap keepRow rows); [discriminate |]. intros _.
  destruct st as [ms rs ss nm nr ns]. cbn in *.
  unfold handleDeleteRecipe, setRecipes, setSalesLog, committed. cbn.
  rewrite (filter_drops_last Recipe.id) by (auto; reflexivity).
  rewrite filter_unchanged; [reflexivity |].
  intros s Hs. rewrite List.Forall_forall in Hsales.
  apply Bool.negb_true_iff, Z.eqb_neq. apply Hsales. exact Hs.
Qed.

Lemma added_recipe_can_be_deleted_witness :
  handleDeleteRecipe
    (fst (handleSubmit tenOfA "B" (Num 100) [FormRow.mk (Some 1) (Num 2)])) true 2
  = (mkState (materials tenOfA) (recipes tenOfA) (salesLog tenOfA) 2 3 1, None).
Proof.
  apply (added_recipe_can_be_deleted unit tenOfA "B" (Num 100)
           [FormRow.mk (Some 1) (Num 2)]).
  - repeat constructor.
  - constructor.
  - reflexivity.
Defined.

(** X10. From a state that meets the invariants of the data model and
    along any sequence of the six operations, material identifiers stay
    pairwise distinct and so do recipe identifiers, all of them stay below
    their counters, and the counters never go back: an identifier is never
    given out twice. *)
Theorem identifiers_stay_unique :
  forall (Stamp : Type) (st : State Stamp) (ops : list (Op Stamp)),
    WellFormed st ->
    List.NoDup (map Material.id (materials (run st ops))) /\
    List.NoDup (map Recipe.id (recipes (run st ops))) /\
    List.Forall (fun m => Material.id m < nextMaterialId (run st ops))
                (materials (run st ops)) /\
    List.Forall (fun r => Recipe.id r < nextRecipeId (run st ops))
                (recipes (run st ops)) /\
    nextMaterialId st <= nextMaterialId (run st ops) /\
    nextRecipeId st <= nextRecipeId (run st ops).
Proof.
  intros Stamp st ops Hwf.
  destruct (run_preserves ops st Hwf) as [[_ H2 H3 H4 H5 _] [Hm Hr _ _]].
  auto 10.
Qed.

Lemma identifiers_stay_unique_witness :
  List.NoDup (map Material.id (materials (run (seedState 0) (morningOps ++ afternoonOps)))) /\
  List.NoDup (map Recipe.id (recipes (run (seedState 0) (morningOps ++ afternoonOps)))) /\
  List.Forall
    (fun m => Material.id m < nextMaterialId (run (seedState 0) (morningOps ++ afternoonOps)))
    (materials (run (seedState 0) (morningOps ++ afternoonOps))) /\
  List.Forall
    (fun r => Recipe.id r < nextRecipeId (run (seedState 0) (morningOps ++ afternoonOps)))
    (recipes (run (seedState 0) (morningOps ++ afternoonOps))) /\
  nextMaterialId (seedState 0)
  <= nextMaterialId (run (seedState 0) (morningOps ++ afternoonOps)) /\
  nextRecipeId (seedState 0)
  <= nextRecipeId (run (seedState 0) (morningOps ++ afternoonOps)).
Proof.
  apply (identifiers_stay_unique Timestamped.Stamp (seedState 0)
           (morningOps ++ afternoonOps)).
  apply seedState_WellFormed.
Defined.

(** ** The low-stock class *)

(** X11. The low-stock class of [MaterialsTable] moves one way under each
    of the two operations that change stock: a stock-in never makes a row
    low that was not, and a sale of a recipe whose item quantities are not
    negative never clears the class of a row that was low. *)
Theorem low_stock_moves_one_way :
  forall (Stamp : Type) (st : State Stamp),
    (forall materialId qty,
       List.Forall2 (fun m m' => isLow m' = true -> isLow m = true)
         (materials st) (materials (fst (handleStockIn st materialId qty)))) /\
    (forall now recipe qty,
       List.Forall (fun i => (0 <= Item.qty i)%Q) (Recipe.items recipe) ->
       List.Forall2 (fun m m' => isLow m = true -> isLow m' = true)
         (materials st) (materials (fst (handleSellRecipe st now recipe qty)))).
Proof.
  intros Stamp st. split.
  - intros materialId qty. unfold handleStockIn.
    destruct qty as [| q]; [apply Forall2_self; auto |].
    destruct (Qle_bool q 0) eqn:Hq; [apply Forall2_self; auto |].
    apply Qle_bool_gt in Hq. cbn. apply Forall2_map_self. intros m _.
    unfold stockInOne, isLow. destruct (_ =? _); cbn; [| auto].
    rewrite !Qle_bool_iff. intros H. lra.
  - intros now recipe qty Hitems.
    destruct (sell_outcome st now recipe qty) as [-> | (q & _ & Hq & _ & ->)];
      [apply Forall2_self; auto |].
    cbn. apply Forall2_map_self. intros m _.
    unfold consume, isLow.
    destruct (findItem (Recipe.items recipe) (Material.id m)) as [item |] eqn:Hf;
      cbn; [| auto].
    apply findItem_some in Hf. destruct Hf as [Hin _].
    rewrite List.Forall_forall in Hitems. specialize (Hitems item Hin).
    assert (0 <= Item.qty item * q)%Q by (apply Qmult_le_0_compat; lra).
    rewrite !Qle_bool_iff. intros H'. lra.
Qed.

Lemma low_stock_moves_one_way_witness :
  List.Forall2 (fun m m' => isLow m = true -> isLow m' = true)
    (materials fiveOfA)
    (materials (fst (handleSellRecipe fiveOfA tt recipeTwice (Num 1)))).
Proof.
  apply (proj2 (low_stock_moves_one_way unit fiveOfA) tt recipeTwice (Num 1)).
  repeat constructor; cbn; lra.
Defined.

(** * Properties of the statistics *)

(** ** Sums of rationals *)

Lemma sumQ_app {A : Type} (f : A -> Q) (l1 l2 : list A) :
  (sumQ f (l1 ++ l2) == sumQ f l1 + sumQ f l2)%Q.
Proof.
  unfold sumQ. induction l1 as [| x l1 IH]; cbn; lra.
Qed.

Lemma sumQ_snoc {A : Type} (f : A -> Q) (l : list A) (x : A) :
  (sumQ f (l ++ [x]) == sumQ f l + f x)%Q.
Proof.
  pose proof (sumQ_app f l [x]) as H. unfold sumQ in *. cbn in *. lra.
Qed.

Lemma sumQ_ext {A : Type} (f g : A -> Q) (l : list A) :
  (forall x, In x l -> (f x == g x)%Q) -> (sumQ f l == sumQ g l)%Q.
Proof.
  unfold sumQ. induction l as [| x l IH]; intros H; cbn; [reflexivity |].
  pose proof (H x (or_introl eq_refl)) as Hx.
  assert (IH' := IH (fun y Hy => H y (or_intror Hy))). lra.
Qed.

(** ** The map of [StatsView] *)

Section JsMapFacts.

Context {V : Type}.
Implicit Types m : JsMap V.

Lemma mapGet_mapSet_eq k (v : V) m : mapGet k (mapSet k v m) = Some v.
Proof.
  unfold mapGet. induction m as [| [k' v'] m IH]; cbn.
  - rewrite Z.eqb_refl. reflexivity.
  - destruct (Z.eqb_spec k' k) as [-> | Hne]; cbn.
    + rewrite Z.eqb_refl. reflexivity.
    + destruct (Z.eqb_spec k' k); [contradiction | exact IH].
Qed.

Lemma mapGet_mapSet_ne k k' (v : V) m :
  k' <> k -> mapGet k' (mapSet k v m) = mapGet k' m.
Proof.
  intros Hne. unfold mapGet. induction m as [| [k0 v0] m IH]; cbn.
  - destruct (Z.eqb_spec k k'); [congruence | reflexivity].
  - destruct (Z.eqb_spec k0 k) as [-> | Hne0]; cbn.
    + destruct (Z.eqb_spec k k'); [congruence | reflexivity].
    + destruct (Z.eqb_spec k0 k'); [reflexivity | exact IH].
Qed.

Lemma mapHas_keys k m : mapHas k m = true <-> In k (map fst m).
Proof.
  unfold mapHas. rewrite existsb_exists, in_map_iff. split.
  - intros (kv & Hin & He). apply Z.eqb_eq in He. eauto.
  - intros (kv & He & Hin). exists kv. split; [exact Hin |]. apply Z.eqb_eq. exact He.
Qed.

Lemma mapGet_None k m : mapGet k m = None <-> mapHas k m = false.
Proof.
  unfold mapGet, mapHas. induction m as [| [k' v'] m IH]; cbn; [tauto |].
  destruct (k' =? k); cbn; [split; discriminate | exact IH].
Qed.

Lemma mapGet_keys k m (v : V) : mapGet k m = Some v -> In k (map fst m).
Proof.
  intros H. apply mapHas_keys. destruct (mapHas k m) eqn:E; [reflexivity |].
  apply mapGet_None in E. congruence.
Qed.

Lemma keys_mapSet k (v : V) m :
  map fst (mapSet k v m)
  = if mapHas k m then map fst m else map fst m ++ [k].
Proof.
  unfold mapHas. induction m as [| [k' v'] m IH]; cbn; [reflexivity |].
  destruct (Z.eqb_spec k' k) as [-> | Hne]; cbn; [reflexivity |].
  rewrite IH. destruct (existsb _ m); reflexivity.
Qed.

Lemma mapSet_mapSet k (v v' : V) m : mapSet k v' (mapSet k v m) = mapSet k v' m.
Proof.
  induction m as [| [k' w] m IH]; cbn.
  - rewrite Z.eqb_refl. reflexivity.
  - destruct (Z.eqb_spec k' k) as [-> | Hne]; cbn.
    + rewrite Z.eqb_refl. reflexivity.
    + destruct (Z.eqb_spec k' k); [contradiction |]. rewrite IH. reflexivity.
Qed.


Lemma mapGet_of_NoDup k (v : V) m :
  List.NoDup (map fst m) -> In (k, v) m -> mapGet k m = Some v.
Proof.
  unfold mapGet. induction m as [| [k' w] m IH]; cbn; intros Hnd Hin; [destruct Hin |].
  inversion Hnd as [| ? ? Hni Hrest]; subst.
  destruct Hin as [[= -> ->] | Hin].
  - rewrite Z.eqb_refl. reflexivity.
  - destruct (Z.eqb_spec k' k) as [-> | Hne]; [| apply IH; assumption].
    exfalso. apply Hni. apply in_map_iff. exists (k, v). auto.
Qed.

End JsMapFacts.


(** ** First occurrences *)

Lemma filter_filter_both {A : Type} (p q r : A -> bool) (l : list A) :
  (forall x, r x = p x && q x) ->
  List.filter p (List.filter q l) = List.filter r l.
Proof.
  intros H. induction l as [| x l IH]; cbn; [reflexivity |].
  rewrite H. destruct (q x), (p x) eqn:Hp; cbn; rewrite ?Hp, ?IH; reflexivity.
Qed.

Lemma distinct_In (ks : list Z) (k : Z) : In k (distinct ks) <-> In k ks.
Proof.
  induction ks as [| j ks IH]; cbn; [tauto |].
  rewrite filter_In, Bool.negb_true_iff, Z.eqb_neq, IH.
  destruct (Z.eq_dec j k); [tauto |]. split; [tauto |].
  intros [H | H]; [tauto |]. right. split; [exact H | congruence].
Qed.

Lemma NoDup_filter {A : Type} (p : A -> bool) (l : list A) :
  List.NoDup l -> List.NoDup (List.filter p l).
Proof.
  induction 1 as [| x l Hni Hnd IH]; cbn; [constructor |].
  destruct (p x); [constructor |]; auto.
  intros Hin. apply filter_In in Hin. tauto.
Qed.

Lemma distinct_NoDup (ks : list Z) : List.NoDup (distinct ks).
Proof.
  induction ks as [| j ks IH]; cbn; constructor.
  - intros Hin. apply filter_In in Hin. destruct Hin as [_ Hne].
    rewrite Z.eqb_refl in Hne. discriminate.
  - apply NoDup_filter. exact IH.
Qed.

Lemma distinct_snoc (ks : list Z) (k : Z) :
  distinct (ks ++ [k])
  = if existsb (fun j => j =? k) ks then distinct ks else distinct ks ++ [k].
Proof.
  induction ks as [| j ks IH]; cbn; [reflexivity |].
  rewrite IH. destruct (Z.eqb_spec j k) as [-> | Hne]; cbn.
  - destruct (existsb (fun j => j =? k) ks); [reflexivity |].
    rewrite List.filter_app. cbn. rewrite Z.eqb_refl. cbn.
    rewrite app_nil_r. reflexivity.
  - destruct (existsb (fun j0 => j0 =? k) ks); [reflexivity |].
    rewrite List.filter_app. cbn.
    destruct (Z.eqb_spec k j); [congruence | reflexivity].
Qed.

Lemma sumQ_ofRecipe_absent {Stamp : Type} (k : Z) (f : Sale.t Stamp -> Q)
    (log : list (Sale.t Stamp)) :
  ~ In k (map Sale.recipeId log) -> (sumQ (ofRecipe k f) log == 0)%Q.
Proof.
  unfold sumQ. induction log as [| s log IH]; cbn; intros H; [reflexivity |].
  unfold ofRecipe at 1. destruct (Z.eqb_spec (Sale.recipeId s) k) as [E | _].
  - exfalso. apply H. left. exact E.
  - assert (IH' := IH (fun Hin => H (or_intror Hin))). lra.
Qed.

Lemma sumQ_bucket_insert (data : list (option Q)) (hour : nat) (q : Q) :
  (hour < length data)%nat ->
  (sumQ bucketValue
     (<[hour := Some (Timestamped.bucketOrZero data hour + q)%Q]> data)
   == sumQ bucketValue data + q)%Q.
Proof.
  unfold sumQ, Timestamped.bucketOrZero.
  revert hour. induction data as [| b data IH]; intros hour Hlt; cbn in *; [lia |].
  destruct hour as [| hour]; cbn.
  - destruct b as [x |]; cbn; [pose proof (orZero_eq x) |]; lra.
  - assert (IH' := IH hour ltac:(lia)).
    set (X := foldr _ _ (<[ _ := _ ]> _)) in *. clearbody X. lra.
Qed.

Lemma getHours_bound (t : Z) : (Z.to_nat (Time.getHours t) < 24)%nat.
Proof.
  unfold Time.getHours.
  pose proof (Z.mod_pos_bound (t / Time.msPerHour) 24 ltac:(lia)). lia.
Qed.

Lemma hourly_step (name : string) (k : Z) (stamp : Timestamped.Stamp) (q : Q)
    (hs : JsMap Timestamped.Hourly.t) :
  match mapGet k (if mapHas k hs then hs
                  else mapSet k (Timestamped.Hourly.mk name (replicate 24 None)) hs) with
  | Some h =>
      mapSet k (Timestamped.Hourly.mk (Timestamped.Hourly.name h)
                  (Timestamped.addToBucket stamp q (Timestamped.Hourly.data h)))
             (if mapHas k hs then hs
              else mapSet k (Timestamped.Hourly.mk name (replicate 24 None)) hs)
  | None =>
      if mapHas k hs then hs
      else mapSet k (Timestamped.Hourly.mk name (replicate 24 None)) hs
  end
  = mapSet k
      (Timestamped.Hourly.mk
         (Timestamped.Hourly.name
            (default (Timestamped.Hourly.mk name (replicate 24 None)) (mapGet k hs)))
         (Timestamped.addToBucket stamp q
            (Timestamped.Hourly.data
               (default (Timestamped.Hourly.mk name (replicate 24 None)) (mapGet k hs)))))
      hs.
Proof.
  destruct (mapHas k hs) eqn:Hhas.
  - destruct (mapGet k hs) as [h |] eqn:Hget; [reflexivity |].
    apply mapGet_None in Hget. congruence.
  - rewrite mapGet_mapSet_eq, mapSet_mapSet.
    apply mapGet_None in Hhas. rewrite Hhas. reflexivity.
Qed.

Lemma existsb_recipeId_keys (recipes : list Recipe.t)
    (done : list (Sale.t Timestamped.Stamp)) (acc : Timestamped.Acc) (k : Z) :
  StatsInv recipes done acc ->
  mapHas k (Timestamped.perRecipe acc)
  = existsb (fun j => j =? k) (map Sale.recipeId done).
Proof.
  intros Hinv. apply Bool.eq_iff_eq_true.
  rewrite mapHas_keys, (inv_keys _ _ _ Hinv), distinct_In, existsb_exists.
  split.
  - intros Hin. exists k. split; [exact Hin | apply Z.eqb_refl].
  - intros (j & Hin & He). apply Z.eqb_eq in He. subst. exact Hin.
Qed.

Lemma mapHas_same_keys {V W : Type} (m1 : JsMap V) (m2 : JsMap W) (k : Z) :
  map fst m1 = map fst m2 -> mapHas k m1 = mapHas k m2.
Proof.
  intros H. apply Bool.eq_iff_eq_true. rewrite !mapHas_keys, H. reflexivity.
Qed.

Lemma addSale_shape (recipes : list Recipe.t) (acc : Timestamped.Acc)
    (sale : Sale.t Timestamped.Stamp) :
  Timestamped.addSale recipes acc sale
  = Timestamped.mkAcc
      (mkSummary
         (totalQty (Timestamped.accSummary acc) + Sale.qty sale)
         (totalSales (Timestamped.accSummary acc)
          + Sale.qty sale * orZero (Sale.pricePerUnit sale)))
      (mapSet (Sale.recipeId sale)
         (Timestamped.Entry.mk
            (Timestamped.Entry.id
               (default (Timestamped.Entry.mk (Sale.recipeId sale)
                           (recipeName recipes (Sale.recipeId sale)) 0 0)
                        (mapGet (Sale.recipeId sale) (Timestamped.perRecipe acc))))
            (Timestamped.Entry.name
               (default (Timestamped.Entry.mk (Sale.recipeId sale)
                           (recipeName recipes (Sale.recipeId sale)) 0 0)
                        (mapGet (Sale.recipeId sale) (Timestamped.perRecipe acc))))
            (Timestamped.Entry.qty
               (default (Timestamped.Entry.mk (Sale.recipeId sale)
                           (recipeName recipes (Sale.recipeId sale)) 0 0)
                        (mapGet (Sale.recipeId sale) (Timestamped.perRecipe acc)))
             + Sale.qty sale)
            (Timestamped.Entry.sales
               (default (Timestamped.Entry.mk (Sale.recipeId sale)
                           (recipeName recipes (Sale.recipeId sale)) 0 0)
                        (mapGet (Sale.recipeId sale) (Timestamped.perRecipe acc)))
             + Sale.qty sale * orZero (Sale.pricePerUnit sale)))
         (Timestamped.perRecipe acc))
      (mapSet (Sale.recipeId sale)
         (Timestamped.Hourly.mk
            (Timestamped.Hourly.name
               (default (Timestamped.Hourly.mk
                           (recipeName recipes (Sale.recipeId sale))
                           (replicate 24 None))
                        (mapGet (Sale.recipeId sale) (Timestamped.hourlySales acc))))
            (Timestamped.addToBucket (Sale.stamp sale) (Sale.qty sale)
               (Timestamped.Hourly.data
                  (default (Timestamped.Hourly.mk
                              (recipeName recipes (Sale.recipeId sale))
                              (replicate 24 None))
                           (mapGet (Sale.recipeId sale) (Timestamped.hourlySales acc))))))
         (Timestamped.hourlySales acc)).
Proof.
  unfold Timestamped.addSale. cbn zeta. rewrite hourly_step.
  destruct (mapGet (Sale.recipeId sale) (Timestamped.perRecipe acc)); reflexivity.
Qed.

Lemma sumQ_ofRecipe_snoc {Stamp : Type} (j : Z) (f : Sale.t Stamp -> Q)
    (done : list (Sale.t Stamp)) (sale : Sale.t Stamp) :
  (sumQ (ofRecipe j f) (done ++ [sale])
   == sumQ (ofRecipe j f) done
      + (if Sale.recipeId sale =? j then f sale else 0))%Q.
Proof.
  rewrite sumQ_snoc. unfold ofRecipe at 2. reflexivity.
Qed.

Lemma addToBucket_length (stamp : Timestamped.Stamp) (q : Q) (data : list (option Q)) :
  length (Timestamped.addToBucket stamp q data) = length data.
Proof.
  unfold Timestamped.addToBucket. destruct stamp; [apply length_insert | reflexivity].
Qed.

Lemma addToBucket_sum (t : Z) (q : Q) (data : list (option Q)) :
  length data = 24%nat ->
  (sumQ bucketValue (Timestamped.addToBucket (Some t) q data)
   == sumQ bucketValue data + q)%Q.
Proof.
  intros Hlen. unfold Timestamped.addToBucket. apply sumQ_bucket_insert.
  rewrite Hlen. apply getHours_bound.
Qed.

Lemma replicate_None_sum (n : nat) : (sumQ bucketValue (replicate n None) == 0)%Q.
Proof.
  unfold sumQ. induction n as [| n IH]; cbn; lra.
Qed.

Lemma StatsInv_step (recipes : list Recipe.t)
    (done : list (Sale.t Timestamped.Stamp)) (acc : Timestamped.Acc)
    (sale : Sale.t Timestamped.Stamp) :
  StatsInv recipes done acc ->
  StatsInv recipes (done ++ [sale]) (Timestamped.addSale recipes acc sale).
Proof.
  intros Hinv. pose proof Hinv as [Hkeys Hhkeys Htq Hts Hentry Hseries].
  rewrite addSale_shape. set (k := Sale.recipeId sale) in *.
  assert (Habsent : mapGet k (Timestamped.perRecipe acc) = None ->
                    ~ In k (map Sale.recipeId done)).
  { intros Hnone Hin. apply mapGet_None in Hnone.
    assert (mapHas k (Timestamped.perRecipe acc) = true); [| congruence].
    apply mapHas_keys. rewrite Hkeys. apply distinct_In. exact Hin. }
  assert (Hprice : (Sale.qty sale * orZero (Sale.pricePerUnit sale) == revenue sale)%Q).
  { unfold revenue. rewrite orZero_eq. reflexivity. }
  constructor; cbn [Timestamped.perRecipe Timestamped.hourlySales
                     Timestamped.accSummary totalQty totalSales].
  - rewrite keys_mapSet, map_app. cbn [map]. fold k. rewrite distinct_snoc.
    rewrite (existsb_recipeId_keys recipes done acc k Hinv), Hkeys.
    destruct (existsb _ _); reflexivity.
  - rewrite !keys_mapSet.
    rewrite (mapHas_same_keys _ _ k Hhkeys), Hhkeys. reflexivity.
  - rewrite sumQ_snoc, Htq. reflexivity.
  - rewrite sumQ_snoc, Hts, Hprice. reflexivity.
  - intros j e Hget. rewrite !sumQ_ofRecipe_snoc. fold k.
    destruct (Z.eq_dec j k) as [-> | Hne].
    + rewrite mapGet_mapSet_eq in Hget. injection Hget as <-.
      cbn [Timestamped.Hourly.name Timestamped.Hourly.data Timestamped.Entry.id
           Timestamped.Entry.name Timestamped.Entry.qty Timestamped.Entry.sales].
      rewrite Z.eqb_refl.
      destruct (mapGet k (Timestamped.perRecipe acc)) as [old |] eqn:Hold;
        cbn [from_option id Timestamped.Hourly.name Timestamped.Hourly.data
             Timestamped.Entry.id Timestamped.Entry.name Timestamped.Entry.qty
             Timestamped.Entry.sales].
      * destruct (Hentry k old Hold) as (H1 & H2 & H3 & H4).
        repeat split; auto; [rewrite H3 | rewrite H4, Hprice]; reflexivity.
      * specialize (Habsent eq_refl).
        repeat split; auto;
          [rewrite (sumQ_ofRecipe_absent k Sale.qty done Habsent)
          | rewrite (sumQ_ofRecipe_absent k revenue done Habsent), Hprice];
          reflexivity.
    + rewrite mapGet_mapSet_ne in Hget by exact Hne.
      destruct (Hentry j e Hget) as (H1 & H2 & H3 & H4).
      destruct (Z.eqb_spec k j); [congruence |].
      repeat split; auto; [rewrite H3 | rewrite H4]; lra.
  - intros j h Hget. rewrite sumQ_ofRecipe_snoc. fold k.
    destruct (Z.eq_dec j k) as [-> | Hne].
    + rewrite mapGet_mapSet_eq in Hget. injection Hget as <-.
      cbn [Timestamped.Hourly.name Timestamped.Hourly.data Timestamped.Entry.id
           Timestamped.Entry.name Timestamped.Entry.qty Timestamped.Entry.sales].
      rewrite Z.eqb_refl, addToBucket_length.
      destruct (mapGet k (Timestamped.hourlySales acc)) as [old |] eqn:Hold;
        cbn [from_option id Timestamped.Hourly.name Timestamped.Hourly.data
             Timestamped.Entry.id Timestamped.Entry.name Timestamped.Entry.qty
             Timestamped.Entry.sales].
      * destruct (Hseries k old Hold) as (H1 & H2 & H3).
        split; [exact H1 |]. split; [exact H2 |].
        intros Hall. apply List.Forall_app in Hall. destruct Hall as [Hall Hsale].
        inversion Hsale as [| ? ? Hstamp _]; subst. cbn beta in Hstamp.
        destruct (Sale.stamp sale) as [t |] eqn:Hst; [| exfalso; exact (Hstamp Hst)].
        rewrite addToBucket_sum by exact H2. rewrite (H3 Hall). reflexivity.
      * split; [reflexivity |]. split; [reflexivity |].
        intros Hall. apply List.Forall_app in Hall. destruct Hall as [Hall Hsale].
        inversion Hsale as [| ? ? Hstamp _]; subst. cbn beta in Hstamp.
        destruct (Sale.stamp sale) as [t |] eqn:Hst; [| exfalso; exact (Hstamp Hst)].
        rewrite addToBucket_sum by reflexivity.
        pose proof (replicate_None_sum 24) as Hzero. cbn [replicate] in Hzero.
        rewrite Hzero.
        assert (Hnone : mapGet k (Timestamped.perRecipe acc) = None).
        { apply mapGet_None. rewrite <- (mapHas_same_keys _ _ k Hhkeys).
          apply mapGet_None. exact Hold. }
        rewrite (sumQ_ofRecipe_absent k Sale.qty done (Habsent Hnone)). reflexivity.
    + rewrite mapGet_mapSet_ne in Hget by exact Hne.
      destruct (Hseries j h Hget) as (H1 & H2 & H3).
      destruct (Z.eqb_spec k j); [congruence |].
      split; [exact H1 |]. split; [exact H2 |].
      intros Hall. apply List.Forall_app in Hall. destruct Hall as [Hall _].
      rewrite (H3 Hall). lra.
Qed.

Lemma StatsInv_fold (recipes : list Recipe.t) (log : list (Sale.t Timestamped.Stamp)) :
  forall done acc,
    StatsInv recipes done acc ->
    StatsInv recipes (done ++ log) (fold_left (Timestamped.addSale recipes) log acc).
Proof.
  induction log as [| sale log IH]; intros done acc Hinv; cbn.
  - rewrite app_nil_r. exact Hinv.
  - replace (done ++ sale :: log) with ((done ++ [sale]) ++ log)
      by (rewrite <- app_assoc; reflexivity).
    apply IH. apply StatsInv_step. exact Hinv.
Qed.

Lemma StatsInv_aggregate (recipes : list Recipe.t) (log : list (Sale.t Timestamped.Stamp)) :
  StatsInv recipes log
    (fold_left (Timestamped.addSale recipes) log
       (Timestamped.mkAcc (mkSummary 0 0) [] [])).
Proof.
  apply (StatsInv_fold recipes log []).
  constructor; cbn; try reflexivity; intros k x H; discriminate.
Qed.

(** ** What the later [StatsView] computes *)









(** ** Which sales a filter selects *)

Lemma within_day (day t : Z) :
  ((day * Time.msPerDay <=? t) && (t <=? day * Time.msPerDay + (Time.msPerDay - 1)))
  = (localDay t =? day).
Proof.
  unfold localDay, Time.msPerDay. apply Bool.eq_iff_eq_true.
  rewrite Bool.andb_true_iff, !Z.leb_le, Z.eqb_eq.
  split.
  - intros [H1 H2]. symmetry. apply (Z.div_unique t 86400000 day (t - day * 86400000)); lia.
  - intros <-. pose proof (Z.mul_div_le t 86400000 ltac:(lia)).
    pose proof (Z.mul_succ_div_gt t 86400000 ltac:(lia)). lia.
Qed.

Lemma within_days (s e t : Z) :
  (s * Time.msPerDay <=? t) && (t <=? e * Time.msPerDay + (Time.msPerDay - 1)) = true
  <-> s <= localDay t <= e.
Proof.
  unfold localDay, Time.msPerDay.
  rewrite Bool.andb_true_iff, !Z.leb_le.
  pose proof (Z.mul_div_le t 86400000 ltac:(lia)).
  pose proof (Z.mul_succ_div_gt t 86400000 ltac:(lia)).
  split; intros [H1 H2]; split; nia.
Qed.

(** X16. Which sales the later [StatsView] counts: with the filter
    [today], exactly the sales with a valid timestamp on the local day of
    the current moment; with a custom range whose start is not after its
    end, exactly the sales with a valid timestamp on a local day from the
    start to the end, both included; with [all], every sale.  A sale with
    an invalid date is never counted under [today] or such a range. *)
Theorem selected_sales :
  forall (now : Z) (salesLog : list (Sale.t Timestamped.Stamp))
         (startDate endDate : option Z),
    (forall sale,
       In sale (Timestamped.selectLog now salesLog today startDate endDate) <->
       In sale salesLog /\
       exists t, Sale.stamp sale = Some t /\ localDay t = localDay now) /\
    (forall s e sale,
       s <= e ->
       (In sale (Timestamped.selectLog now salesLog custom (Some s) (Some e)) <->
        In sale salesLog /\
        exists t, Sale.stamp sale = Some t /\ s <= localDay t <= e)) /\
    Timestamped.selectLog now salesLog all startDate endDate = salesLog.
Proof.
  intros now salesLog startDate endDate. split; [| split; [| reflexivity]].
  - intros sale. cbn [Timestamped.selectLog]. rewrite filter_In.
    unfold Timestamped.within, Time.endOfDay, Time.startOfDay.
    fold (localDay now).
    destruct (Sale.stamp sale) as [t |].
    + rewrite within_day, Z.eqb_eq. split.
      * intros [H1 H2]. split; [exact H1 |]. exists t. auto.
      * intros [H1 (t' & [= <-] & H2)]. auto.
    + split; [intros [_ H]; discriminate | intros [_ (t & H & _)]; discriminate].
  - intros s e sale Hse. cbn [Timestamped.selectLog].
    unfold Time.endOfDay, Time.startOfDay, Time.parseDateString.
    rewrite !Z.div_mul by (unfold Time.msPerDay; lia).
    replace (s * Time.msPerDay <=? e * Time.msPerDay + (Time.msPerDay - 1)) with true
      by (symmetry; apply Z.leb_le; unfold Time.msPerDay; lia).
    rewrite filter_In. unfold Timestamped.within.
    destruct (Sale.stamp sale) as [t |].
    + rewrite within_days. split.
      * intros [H1 H2]. split; [exact H1 |]. exists t. auto.
      * intros [H1 (t' & [= <-] & H2)]. auto.
    + split; [intros [_ H]; discriminate | intros [_ (t & H & _)]; discriminate].
Qed.

Lemma selected_sales_witness :
  In (Sale.mk 1 1 2 600 (Some 28800000))
     (Timestamped.selectLog 0 twoSales custom (Some 0) (Some 1)) <->
  In (Sale.mk 1 1 2 600 (Some 28800000)) twoSales /\
  exists t, Some 28800000 = Some t /\ 0 <= localDay t <= 1.
Proof.
  apply (proj1 (proj2 (selected_sales 0 twoSales None None)) 0 1
           (Sale.mk 1 1 2 600 (Some 28800000))).
  lia.
Defined.

(** ** Statistics over the states the handlers produce *)

Lemma selectLog_In (now : Z) (salesLog : list (Sale.t Timestamped.Stamp))
    (filterType : FilterType) (startDate endDate : option Z)
    (sale : Sale.t Timestamped.Stamp) :
  In sale (Timestamped.selectLog now salesLog filterType startDate endDate) ->
  In sale salesLog.
Proof.
  unfold Timestamped.selectLog.
  destruct filterType; [| auto |].
  - intros H. apply filter_In in H. tauto.
  - destruct startDate, endDate; auto.
    destruct (_ <=? _); auto. intros H. apply filter_In in H. tauto.
Qed.

Lemma entries_come_from_sales (now : Z) (salesLog : list (Sale.t Timestamped.Stamp))
    (recipes : list Recipe.t) (filterType : FilterType)
    (startDate endDate : option Z) :
  List.Forall
    (fun e =>
       Timestamped.Entry.name e = recipeName recipes (Timestamped.Entry.id e) /\
       exists sale, In sale salesLog /\ Sale.recipeId sale = Timestamped.Entry.id e)
    (Timestamped.perRecipeStats
       (Timestamped.computeStats now salesLog recipes filterType startDate endDate)).
Proof.
  unfold Timestamped.computeStats, Timestamped.aggregate.
  cbn [Timestamped.perRecipeStats].
  set (log := Timestamped.selectLog now salesLog filterType startDate endDate).
  destruct (StatsInv_aggregate recipes log) as [Hkeys _ _ _ Hentry _].
  set (acc := fold_left _ _ _) in *.
  assert (Hnd : List.NoDup (map fst (Timestamped.perRecipe acc)))
    by (rewrite Hkeys; apply distinct_NoDup).
  apply List.Forall_forall. intros e He. unfold mapValues in He.
  apply in_map_iff in He. destruct He as ([k e'] & <- & Hin). cbn.
  pose proof (mapGet_of_NoDup k e' _ Hnd Hin) as Hget.
  destruct (Hentry k e' Hget) as (Hid' & Hname & _).
  split; [congruence |].
  assert (Hk : In (Timestamped.Entry.id e') (map Sale.recipeId log)).
  { rewrite Hid'. apply distinct_In. rewrite <- Hkeys. eapply mapGet_keys. exact Hget. }
  apply in_map_iff in Hk. destruct Hk as (sale & Hid & Hsale).
  exists sale. split; [| exact Hid]. eapply selectLog_In. exact Hsale.
Qed.

Lemma recipeName_resolved (recipes : list Recipe.t) (recipeId : Z) :
  (exists r, In r recipes /\ Recipe.id r = recipeId) ->
  exists r, In r recipes /\ Recipe.id r = recipeId /\
            Recipe.name r = recipeName recipes recipeId.
Proof.
  intros (r & Hin & Hid). unfold recipeName, findRecipe.
  destruct (find (fun r0 => Recipe.id r0 =? recipeId) recipes) as [r' |] eqn:Hf.
  - apply find_some in Hf. destruct Hf as [Hin' He]. apply Z.eqb_eq in He.
    exists r'. auto.
  - exfalso. apply (find_none _ _ Hf) in Hin. apply Z.eqb_neq in Hin. contradiction.
Qed.

(** X17. In a state where every sale refers to a recipe of the store, as
    the handlers keep it, every entry of the per-recipe statistics carries
    the identifier and the name of a recipe of the store, under every
    filter: the placeholder for a deleted recipe is never needed. *)
Theorem stats_names_are_recipe_names :
  forall (st : State Timestamped.Stamp) (now : Z) (filterType : FilterType)
         (startDate endDate : option Z),
    SalesResolve st ->
    List.Forall
      (fun e =>
         exists r, In r (recipes st) /\
                   Recipe.id r = Timestamped.Entry.id e /\
                   Recipe.name r = Timestamped.Entry.name e)
      (Timestamped.perRecipeStats
         (Timestamped.computeStats now (salesLog st) (recipes st) filterType
            startDate endDate)).
Proof.
  intros st now filterType startDate endDate Hres.
  eapply List.Forall_impl;
    [| apply (entries_come_from_sales now (salesLog st) (recipes st) filterType
                startDate endDate)].
  cbn. intros e (Hname & sale & Hin & Hid).
  destruct (Hres sale Hin) as (r & Hr & Hrid).
  destruct (recipeName_resolved (recipes st) (Timestamped.Entry.id e))
    as (r' & Hr' & Hid' & Hname'); [exists r; split; [exact Hr | congruence] |].
  exists r'. split; [exact Hr' |]. split; [exact Hid' | congruence].
Qed.

Lemma stats_names_are_recipe_names_witness :
  List.Forall
    (fun e =>
       exists r, In r (recipes (seedState 0)) /\
                 Recipe.id r = Timestamped.Entry.id e /\
                 Recipe.name r = Timestamped.Entry.name e)
    (Timestamped.perRecipeStats
       (Timestamped.computeStats 0 (salesLog (seedState 0)) (recipes (seedState 0))
          today None None)).
Proof.
  apply (stats_names_are_recipe_names (seedState 0) 0 today None None).
  apply seedState_SalesResolve.
Defined.

(** X18. After a confirmed [handleDeleteRecipe] the statistics of the
    later [StatsView] have no entry for the deleted recipe, under every
    filter. *)
Theorem deleted_recipe_leaves_statistics :
  forall (st : State Timestamped.Stamp) (recipeId now : Z)
         (filterType : FilterType) (startDate endDate : option Z),
    List.Forall
      (fun e => Timestamped.Entry.id e <> recipeId)
      (Timestamped.perRecipeStats
         (Timestamped.computeStats now
            (salesLog (fst (handleDeleteRecipe st true recipeId)))
            (recipes (fst (handleDeleteRecipe st true recipeId)))
            filterType startDate endDate)).
Proof.
  intros st recipeId now filterType startDate endDate.
  eapply List.Forall_impl; [| apply entries_come_from_sales].
  cbn. intros e (_ & sale & Hin & Hid).
  apply in_filter_ne in Hin. destruct Hin as [_ Hne]. congruence.
Qed.




(** ** What the [StatsView] of [src/App.js] computes *)






(** ** The rows of the recipe form *)

Lemma omap_keepRow_addRecipeRow (rows : list FormRow.t) :
  omap keepRow (addRecipeRow rows) = omap keepRow rows.
Proof.
  unfold addRecipeRow. induction rows as [| row rows IH]; cbn; [reflexivity |].
  destruct (keepRow row); cbn in *; rewrite IH; reflexivity.
Qed.

Lemma omap_keepRow_blank (rows : list FormRow.t) (n : nat) :
  omap keepRow (Nat.iter n addRecipeRow rows) = omap keepRow rows.
Proof.
  induction n as [| n IH]; [reflexivity |].
  rewrite Nat.iter_succ, omap_keepRow_addRecipeRow. exact IH.
Qed.

(** X21. Rows that were added to the recipe form and left as they come
    are ignored when the form is submitted: the outcome is the one of the
    form without them, and a form made only of such rows is refused with
    the empty-recipe alert. *)
Theorem blank_rows_are_ignored :
  forall (Stamp : Type) (st : State Stamp) (name : string) (price : JsNum)
         (rows : list FormRow.t) (n : nat),
    handleSubmit st name price (Nat.iter n addRecipeRow rows)
    = handleSubmit st name price rows /\
    (name <> "" ->
     handleSubmit st name price (Nat.iter n addRecipeRow [blankRow])
     = (st, Some EmptyRecipe)).
Proof.
  intros Stamp st name price rows n. unfold handleSubmit.
  rewrite !omap_keepRow_blank. split; [reflexivity |].
  intros Hname. destruct name; [congruence | reflexivity].
Qed.

Lemma blank_rows_are_ignored_witness :
  handleSubmit tenOfA "B" (Num 100) (Nat.iter 3 addRecipeRow [blankRow])
  = (tenOfA, Some EmptyRecipe).
Proof.
  apply (blank_rows_are_ignored unit tenOfA "B" (Num 100) [] 3).
  discriminate.
Defined.

Lemma filterIndexed_remove {A : Type} (index : nat) (l : list A) :
  forall i,
    filterIndexed (fun _ j => negb (Nat.eqb j index)) i l
    = if Nat.ltb index i then l
      else take (index - i) l ++ drop (S (index - i)) l.
Proof.
  induction l as [| x l IH]; intros i; cbn [filterIndexed].
  - destruct (Nat.ltb index i); [reflexivity |].
    rewrite take_nil, drop_nil. reflexivity.
  - rewrite IH.
    destruct (Nat.eqb_spec i index) as [-> | Hne]; cbn [negb].
    + replace (Nat.ltb index (S index)) with true
        by (symmetry; apply Nat.ltb_lt; lia).
      replace (Nat.ltb index index) with false
        by (symmetry; apply Nat.ltb_ge; lia).
      rewrite Nat.sub_diag. reflexivity.
    + destruct (Nat.ltb_spec index i) as [Hlt | Hge].
      * replace (Nat.ltb index (S i)) with true
          by (symmetry; apply Nat.ltb_lt; lia).
        reflexivity.
      * replace (Nat.ltb index (S i)) with false
          by (symmetry; apply Nat.ltb_ge; lia).
        replace (index - i)%nat with (S (index - S i)) by lia.
        reflexivity.
Qed.

(** X22. Removing a row of the recipe form takes out exactly the row at
    that index and keeps the others in order; an index past the last row
    removes nothing; and removing the row that was just added gives the
    rows back. *)
Theorem removeRecipeRow_removes_one :
  forall (rows : list FormRow.t) (index : nat),
    removeRecipeRow index rows = take index rows ++ drop (S index) rows /\
    ((length rows <= index)%nat -> removeRecipeRow index rows = rows) /\
    ((index < length rows)%nat ->
     S (length (removeRecipeRow index rows)) = length rows) /\
    removeRecipeRow (length rows) (addRecipeRow rows) = rows.
Proof.
  intros rows index.
  assert (H : forall i l, removeRecipeRow i l = take i l ++ drop (S i) l).
  { intros i l. unfold removeRecipeRow. rewrite filterIndexed_remove.
    cbn [Nat.ltb Nat.leb]. rewrite Nat.sub_0_r. reflexivity. }
  split; [apply H |]. split; [| split].
  - intros Hle. rewrite H, take_ge, drop_ge by lia. apply app_nil_r.
  - intros Hlt. rewrite H, length_app, length_take, length_drop. lia.
  - rewrite H. unfold addRecipeRow.
    rewrite take_app_length, drop_ge by (rewrite length_app; cbn; lia).
    apply app_nil_r.
Qed.

Lemma removeRecipeRow_removes_one_witness :
  removeRecipeRow 5 [blankRow; rowOfSeven] = [blankRow; rowOfSeven] /\
  S (length (removeRecipeRow 0 [blankRow; rowOfSeven])) = 2%nat.
Proof.
  split.
  - apply (proj1 (proj2 (removeRecipeRow_removes_one [blankRow; rowOfSeven] 5))).
    cbn. lia.
  - apply (proj1 (proj2 (proj2 (removeRecipeRow_removes_one [blankRow; rowOfSeven] 0)))).
    cbn. lia.
Defined.

(** ** Loading a consistent ledger *)

(** X23. A backup whose materials have pairwise distinct identifiers and
    no negative stock, and whose recipes have pairwise distinct
    identifiers and positive item quantities, is imported into a state
    that meets the invariants of the data model, and so is such a stored
    ledger by the load at start-up of [src/App.js]: the guarantees that
    hold along every sequence of operations hold again after a restore. *)
Theorem loaded_state_is_well_formed :
  forall (Stamp : Type) (st : State Stamp)
         (ms : list Material.t) (rs : list Recipe.t) (ss : list (Sale.t Stamp)),
    List.Forall (fun m => (0 <= Material.stock m)%Q) ms ->
    List.NoDup (map Material.id ms) ->
    List.NoDup (map Recipe.id rs) ->
    List.Forall
      (fun r => List.Forall (fun i => (0 < Item.qty i)%Q) (Recipe.items r)) rs ->
    WellFormed (fst (handleImport st true (Some ms) (Some rs) (Some ss))) /\
    WellFormed (initialLoad (Some ms) (Some rs) (Some ss)).
Proof.
  intros Stamp st ms rs ss Hstock Hm Hr Hqty. split.
  - constructor; cbn; auto; apply below_counter_or_one.
  - unfold initialLoad. cbn [loadFromStorage].
    destruct ms as [| m ms], rs as [| r rs], ss as [| s ss];
      cbn -[maxWithZero map Z.add Z.lt];
      constructor; cbn -[maxWithZero map Z.add Z.lt]; auto;
      first [ apply List.Forall_nil
            | apply (below_maxWithZero Material.id (m :: ms))
            | apply (below_maxWithZero Recipe.id (r :: rs)) ].
Qed.

Lemma loaded_state_is_well_formed_witness :
  WellFormed (fst (handleImport tenOfA true (Some seedMaterials) (Some seedRecipes)
                     (Some []))) /\
  WellFormed (@initialLoad unit (Some seedMaterials) (Some seedRecipes) (Some [])).
Proof.
  apply (loaded_state_is_well_formed unit tenOfA seedMaterials seedRecipes []).
  - repeat constructor; cbn; lra.
  - repeat constructor; cbn; intuition discriminate.
  - repeat constructor; cbn; intuition discriminate.
  - repeat constructor; cbn; lra.
Defined.

(** ** The statements without a premise, at an example *)


